(** * The connection session of [server1.py]

    A shallow embedding of [handle(ws)], the coroutine that serves one
    websocket connection: the initialize handshake, the request loop, the
    dispatch of [llm.generate] to the chat-completions backend and the
    framing of every reply as a [result] dictionary.

    Conventions of the embedding.
    - A Python [str] is a list of code points; a decoded JSON document is a
      [value]; a Python [dict] is an association list in insertion order.
    - [ws.send(json.dumps(d))] is recorded as the event [Send d]: the
      dictionary handed to [json.dumps] stands for the text frame.
    - [json.loads], [float()] on integers and strings, [str()] on
      containers and floats, and the backend are the Python runtime and the
      OpenAI client: they are parameters of the section [Session].
    - [json.loads] returns the decoded document or raises: an exception
      is [json.JSONDecodeError], which the handlers catch, or another one
      (the decoder's [RecursionError] on deep nesting, the [ValueError] of
      an integer literal beyond the conversion limit), which they do not.
    - Inbound frames are text frames; the inbox is the list of frames the
      peer sends before it closes, so [ws.recv()] on an empty inbox raises
      [ConnectionClosed], and [ws.send] succeeds while the session runs.
    - Inside the [try] of [llm.generate], whatever raises (the call, the
      reads of its result, the serialisation of the reply) is the backend's
      [failure]. *)

From Stdlib Require Import List String Ascii ZArith NArith Bool Lia.
From Stdlib Require Import PrimFloat DecimalString.
Import ListNotations.

Set Implicit Arguments.
Set Warnings "-register-all,-notation-for-abbreviation,-inexact-float".
#[local] Open Scope list_scope.

(** ** Python strings *)

Module Str.

Definition str := list N.

(** A source literal, character by character. *)
Definition lit (s : string) : str := map N_of_ascii (list_ascii_of_string s).

Fixpoint eqb (a b : str) : bool :=
  match a, b with
  | [], [] => true
  | x :: a', y :: b' => N.eqb x y && eqb a' b'
  | _, _ => false
  end.

(** [str.isspace] on one code point (CPython's [_PyUnicode_IsWhitespace]). *)
Definition isspace (c : N) : bool :=
  ((9 <=? c) && (c <=? 13)
   || (28 <=? c) && (c <=? 32)
   || (c =? 133) || (c =? 160) || (c =? 5760)
   || (8192 <=? c) && (c <=? 8202)
   || (c =? 8232) || (c =? 8233) || (c =? 8239) || (c =? 8287)
   || (c =? 12288))%N.

Fixpoint lstrip (s : str) : str :=
  match s with
  | [] => []
  | c :: s' => if isspace c then lstrip s' else s
  end.

Definition rstrip (s : str) : str := rev (lstrip (rev s)).

(** [s.strip()] with no argument. *)
Definition strip (s : str) : str := rstrip (lstrip s).

(** The truth value of a string: [not s] holds of the empty string only. *)
Definition is_empty (s : str) : bool :=
  match s with [] => true | _ :: _ => false end.

(** A string is blank when every character of it is whitespace. *)
Definition blank (s : str) : bool := forallb isspace s.

End Str.

Import Str.
Arguments lit s%_string.

(** ** Decoded JSON documents and Python values *)

Inductive value : Type :=
| VNone
| VBool (b : bool)
| VInt (z : Z)
| VFloat (f : float)
| VStr (s : str)
| VList (l : list value)
| VDict (d : list (str * value)).

Definition dict := list (str * value).

Fixpoint lookup (k : str) (d : dict) : option value :=
  match d with
  | [] => None
  | (k', v) :: d' => if Str.eqb k k' then Some v else lookup k d'
  end.

(** [d.get(k, default)] on a dictionary. *)
Definition dict_get (d : dict) (k : str) (default : value) : value :=
  match lookup k d with
  | Some v => v
  | None => default
  end.

(** [v == s] for a string literal [s]: only an equal [str] compares equal. *)
Definition is_str (v : value) (s : str) : bool :=
  match v with
  | VStr s' => Str.eqb s' s
  | _ => false
  end.

(** Exceptions: the ones that leave [handle], and [JSONDecodeError],
    which its two handlers catch. *)
Inductive exn : Type :=
| AttributeError
| TypeError
| ValueError
| OverflowError
| ConnectionClosed
| JSONDecodeError
| RecursionError.

(** [obj.get(k, default)]: only a [dict] has the method. *)
Definition py_get (obj : value) (k : str) (default : value) : value + exn :=
  match obj with
  | VDict d => inl (dict_get d k default)
  | _ => inr AttributeError
  end.

(** [obj.strip()]: only a [str] has the method. *)
Definition py_strip (obj : value) : str + exn :=
  match obj with
  | VStr s => inl (strip s)
  | _ => inr AttributeError
  end.

(** [0.2], the nearest binary64 value. *)
Definition default_temperature : float := 0x1.999999999999ap-3%float.

(** ** The backend: [oai.chat.completions.create] *)

(** The keyword arguments of one call. *)
Record call : Type := Create {
  model : value;
  temperature : float;
  messages : value
}.

(** What the handler reads from a returned completion:
    [chat.choices[0].message.content] and, when [chat.usage] is present,
    [chat.usage.model_dump()]. *)
Record completion : Type := Chat {
  content : value;
  usage : option dict
}.

(** An exception raised inside the [try]: [str(e)] and the lines of
    [traceback.format_exc()]. *)
Record failure : Type := Failure {
  str_e : str;
  format_exc_lines : list str
}.

(** Observable effects of a session, in order. *)
Inductive event : Type :=
| Send (payload : value)
| Call (c : call).

(** ** Constants of the module *)

Definition SERVER_NAME : str := lit "sample-mcp-server".
Definition CAPS : value := VList [VStr (lit "llm.generate")].

(** ** The reply dictionaries *)

Definition ready_announcement : value :=
  VDict [(lit "type", VStr (lit "ready"));
         (lit "server", VStr SERVER_NAME);
         (lit "capabilities", CAPS)].

Definition error_result (id : value) (code message : str) : value :=
  VDict [(lit "type", VStr (lit "result"));
         (lit "id", id);
         (lit "ok", VBool false);
         (lit "error", VDict [(lit "code", VStr code);
                              (lit "message", VStr message)])].

(** [l[-5:]] *)
Definition last5 (A : Type) (l : list A) : list A := skipn (List.length l - 5) l.

Definition llm_error_result (id : value) (f : failure) : value :=
  VDict [(lit "type", VStr (lit "result"));
         (lit "id", id);
         (lit "ok", VBool false);
         (lit "error",
          VDict [(lit "code", VStr (lit "LLMError"));
                 (lit "message", VStr (str_e f));
                 (lit "trace", VList (map VStr (last5 (format_exc_lines f))))])].

Definition success_result (id text format_ : value) (u : option dict) : value :=
  VDict [(lit "type", VStr (lit "result"));
         (lit "id", id);
         (lit "ok", VBool true);
         (lit "data",
          VDict [(lit "text", text);
                 (lit "format", format_);
                 (lit "usage", VDict (match u with Some d => d | None => [] end))])].

Definition chat_messages (system prompt : value) : value :=
  VList [VDict [(lit "role", VStr (lit "system")); (lit "content", system)];
         VDict [(lit "role", VStr (lit "user")); (lit "content", prompt)]].

(** ** Start-up: the top level of the module (lines 9 to 18)

    [load_dotenv()] has filled the process environment; [env] is that
    environment, a variable that is not set reading as [None]. *)

(** [os.getenv(k, default)]: the default stands in for a variable that is
    not set, and only for that. *)
Definition getenv (env : str -> option str) (k default : str) : str :=
  match env k with
  | Some v => v
  | None => default
  end.

(** The four settings the module keeps. *)
Record config : Type := Config {
  OPENAI_API_KEY : str;
  configured_model : str;
  BIND_HOST : str;
  BIND_PORT : Z
}.

(** What stops the import: the [ValueError] of [int(...)] on line 13, or
    the [SystemExit] of line 16 with its message. *)
Inductive abort : Type :=
| PortValueError
| SystemExit (message : str).

Section Startup.

(** [int(s)] on a string; [None] is [ValueError]. *)
Variable py_int : str -> option Z.

(** Lines 10 to 16, in order: the four reads, the port converted as it is
    read, then the test of the key. *)
Definition startup (env : str -> option str) : config + abort :=
  let key := getenv env (lit "OPENAI_API_KEY") [] in
  let model_ := getenv env (lit "OPENAI_MODEL") (lit "gpt-4o-mini") in
  let host := getenv env (lit "BIND_HOST") (lit "0.0.0.0") in
  match py_int (getenv env (lit "BIND_PORT") (lit "8765")) with
  | None => inr PortValueError
  | Some port =>
      if Str.is_empty key then
        inr (SystemExit (lit "Missing OPENAI_API_KEY in environment or .env"))
      else
        inl (Config key model_ host port)
  end.

End Startup.

(** ** A mock runtime and backend for the examples

    The runtime and the backend are parameters of the session below. The
    examples run it against this mock: a decoder that knows the frames
    listed in [frames], raises on two frames as Python's does and rejects
    every other text with [JSONDecodeError], and a backend that
    answers every call with the text [hello], reports no usage and counts
    its calls. *)

Module Mock.

(** JSON text, written with ['] where JSON has the double quote. *)
Definition json (s : string) : str :=
  map (fun c => if N.eqb c 39 then 34%N else c) (lit s).
Arguments json s%_string.

Definition hi_request : str :=
  json "{'type':'request','id':'r1','method':'llm.generate','params':{'prompt':'hi'}}".
Definition hi_decoded : value :=
  VDict [(lit "type", VStr (lit "request")); (lit "id", VStr (lit "r1"));
         (lit "method", VStr (lit "llm.generate"));
         (lit "params", VDict [(lit "prompt", VStr (lit "hi"))])].

Definition ping_request : str :=
  json "{'type':'request','id':'r2','method':'ping'}".
Definition ping_decoded : value :=
  VDict [(lit "type", VStr (lit "request")); (lit "id", VStr (lit "r2"));
         (lit "method", VStr (lit "ping"))].

Definition padded_request : str :=
  json "{'type':'request','id':'r3','method':'llm.generate','params':{'prompt':' hi ','format':'text'}}".
Definition padded_decoded : value :=
  VDict [(lit "type", VStr (lit "request")); (lit "id", VStr (lit "r3"));
         (lit "method", VStr (lit "llm.generate"));
         (lit "params", VDict [(lit "prompt", VStr (lit " hi "));
                               (lit "format", VStr (lit "text"))])].

Definition hi_text_request : str :=
  json "{'type':'request','id':'r1','method':'llm.generate','params':{'prompt':'hi','format':'text'}}".
Definition hi_text_decoded : value :=
  VDict [(lit "type", VStr (lit "request")); (lit "id", VStr (lit "r1"));
         (lit "method", VStr (lit "llm.generate"));
         (lit "params", VDict [(lit "prompt", VStr (lit "hi"));
                               (lit "format", VStr (lit "text"))])].

Definition blank_request : str :=
  json "{'type':'request','id':'r4','method':'llm.generate','params':{'prompt':'   '}}".
Definition blank_decoded : value :=
  VDict [(lit "type", VStr (lit "request")); (lit "id", VStr (lit "r4"));
         (lit "method", VStr (lit "llm.generate"));
         (lit "params", VDict [(lit "prompt", VStr (lit "   "))])].

Definition null_temperature_request : str :=
  json "{'type':'request','id':'r5','method':'llm.generate','params':{'prompt':'hi','temperature':null}}".
Definition null_temperature_decoded : value :=
  VDict [(lit "type", VStr (lit "request")); (lit "id", VStr (lit "r5"));
         (lit "method", VStr (lit "llm.generate"));
         (lit "params", VDict [(lit "prompt", VStr (lit "hi"));
                               (lit "temperature", VNone)])].

Definition blank_null_temperature_request : str :=
  json "{'type':'request','id':'r6','method':'llm.generate','params':{'prompt':'   ','temperature':null}}".
Definition blank_null_temperature_decoded : value :=
  VDict [(lit "type", VStr (lit "request")); (lit "id", VStr (lit "r6"));
         (lit "method", VStr (lit "llm.generate"));
         (lit "params", VDict [(lit "prompt", VStr (lit "   "));
                               (lit "temperature", VNone)])].

Definition event_message : str := json "{'type':'event','id':'e1'}".
Definition event_decoded : value :=
  VDict [(lit "type", VStr (lit "event")); (lit "id", VStr (lit "e1"))].

Definition initialize : str := json "{'type':'initialize'}".
Definition initialize_decoded : value :=
  VDict [(lit "type", VStr (lit "initialize"))].

Definition array_frame : str := json "[]".
Definition not_json : str := lit "hello".

Definition frames : dict :=
  [(hi_request, hi_decoded);
   (ping_request, ping_decoded);
   (padded_request, padded_decoded);
   (hi_text_request, hi_text_decoded);
   (blank_request, blank_decoded);
   (null_temperature_request, null_temperature_decoded);
   (blank_null_temperature_request, blank_null_temperature_decoded);
   (event_message, event_decoded);
   (initialize, initialize_decoded);
   (array_frame, VList [])].

(** Two frames on which Python 3.11's decoder raises something else than
    [JSONDecodeError]: 2000 opening brackets ([RecursionError]) and an
    integer literal of 4301 digits ([ValueError], the limit being 4300). *)
Definition deep_frame : str := repeat 91%N 2000.
Definition huge_integer : str := repeat 49%N 4301.

Definition json_loads (raw : str) : value + exn :=
  if Str.eqb raw deep_frame then inr RecursionError
  else if Str.eqb raw huge_integer then inr ValueError
  else match lookup raw frames with
       | Some v => inl v
       | None => inr JSONDecodeError
       end.

(** [float] on the two integers the examples could meet. *)
Definition float_of_int (z : Z) : option float :=
  match z with
  | 0%Z => Some 0%float
  | 1%Z => Some 1%float
  | _ => None
  end.

(** No example passes a string as temperature. *)
Definition float_of_str (s : str) : option float := None.

(** [str] of the empty containers; no example formats another one. *)
Definition py_repr (v : value) : str :=
  match v with
  | VList [] => lit "[]"
  | VDict [] => lit "{}"
  | _ => []
  end.

Definition OPENAI_MODEL : str := lit "gpt-4o-mini".

Definition hello : completion := Chat (VStr (lit "hello")) None.

Definition create (calls : nat) (c : call) : (completion + failure) * nat :=
  (inl hello, S calls).

(** [int] on the default port; no example sets another one. *)
Definition py_int (s : str) : option Z :=
  if Str.eqb s (lit "8765") then Some 8765%Z else None.

(** An environment that sets the key and nothing else. *)
Definition env (k : str) : option str :=
  if Str.eqb k (lit "OPENAI_API_KEY") then Some (lit "sk-test") else None.

(** A backend that fails every call, with a traceback of seven lines. *)
Definition outage : failure :=
  Failure (lit "Connection error.")
    [lit "Traceback (most recent call last):"; lit "line 2"; lit "line 3";
     lit "line 4"; lit "line 5"; lit "line 6";
     lit "openai.APIConnectionError: Connection error."].

Definition create_failing (calls : nat) (c : call) : (completion + failure) * nat :=
  (inr outage, S calls).

End Mock.

(** ** The session *)

Section Session.

(** The state of the backend service, and one call to it. *)
Variable World : Type.
Variable create : World -> call -> (completion + failure) * World.

(** [json.loads] on a text frame: the document, or the exception raised. *)
Variable json_loads : str -> value + exn.

(** [float(n)] on an [int] ([None]: [OverflowError]) and [float(s)] on a
    [str] ([None]: [ValueError]). *)
Variable float_of_int : Z -> option float.
Variable float_of_str : str -> option float.

(** [str(v)] on a float, a list or a dictionary. *)
Variable py_repr : value -> str.

(** [OPENAI_MODEL], read from the environment at start-up. *)
Variable OPENAI_MODEL : str.

Definition or_raise (A : Type) (o : option A) (e : exn) : A + exn :=
  match o with Some a => inl a | None => inr e end.

(** [float(v)] *)
Definition py_float (v : value) : float + exn :=
  match v with
  | VFloat f => inl f
  | VInt z => or_raise (float_of_int z) OverflowError
  | VBool b => or_raise (float_of_int (Z.b2z b)) OverflowError
  | VStr s => or_raise (float_of_str s) ValueError
  | VNone | VList _ | VDict _ => inr TypeError
  end.

(** [str(v)], as the f-string formats [method]. *)
Definition py_str (v : value) : str :=
  match v with
  | VNone => lit "None"
  | VBool true => lit "True"
  | VBool false => lit "False"
  | VInt z => lit (NilZero.string_of_int (Z.to_int z))
  | VStr s => s
  | VFloat _ | VList _ | VDict _ => py_repr v
  end.

(** *** Effects: a log of events, the backend state, and exceptions *)

Definition M (A : Type) : Type := World -> list event * World * (A + exn).

Definition ret (A : Type) (a : A) : M A := fun w => ([], w, inl a).

Definition bind (A B : Type) (m : M A) (k : A -> M B) : M B := fun w =>
  let '(l1, w1, r1) := m w in
  match r1 with
  | inl a => let '(l2, w2, r2) := k a w1 in (l1 ++ l2, w2, r2)
  | inr e => (l1, w1, inr e)
  end.

(** A Python expression that may raise. *)
Definition eval (A : Type) (r : A + exn) : M A := fun w => ([], w, r).

(** [await ws.send(json.dumps(d))] *)
Definition send (d : value) : M unit := fun w => ([Send d], w, inl tt).

(** The body of the [try]: the call and the reads of its result. *)
Definition oai_create (c : call) : M (completion + failure) := fun w =>
  let '(r, w') := create w c in ([Call c], w', inl r).

Notation "x <- m ;; k" := (bind m (fun x => k))
  (at level 61, m at next level, right associativity).

(** *** One iteration of [while True], after [ws.recv()] returned [raw] *)

(** The rest of the iteration once [json.loads(raw)] returned [msg]. *)
Definition serve_decoded (msg : value) : M unit :=
  type_ <- eval (py_get msg (lit "type") VNone) ;;
  if negb (is_str type_ (lit "request")) then
    id <- eval (py_get msg (lit "id") (VStr (lit "unknown"))) ;;
    send (error_result id (lit "BadRequest") (lit "Expected type=request"))
  else
    req_id <- eval (py_get msg (lit "id") (VStr (lit "unknown"))) ;;
    method <- eval (py_get msg (lit "method") VNone) ;;
    params <- eval (py_get msg (lit "params") (VDict [])) ;;
    if is_str method (lit "llm.generate") then
      prompt <- eval (py_get params (lit "prompt") (VStr [])) ;;
      system <- eval (py_get params (lit "system")
                        (VStr (lit "You are a helpful assistant."))) ;;
      model <- eval (py_get params (lit "model") (VStr OPENAI_MODEL)) ;;
      t <- eval (py_get params (lit "temperature") (VFloat default_temperature)) ;;
      temperature <- eval (py_float t) ;;
      format_ <- eval (py_get params (lit "format") (VStr (lit "markdown"))) ;;
      stripped <- eval (py_strip prompt) ;;
      if Str.is_empty stripped then
        send (error_result req_id (lit "BadRequest") (lit "prompt is required"))
      else
        reply <- oai_create (Create model temperature (chat_messages system prompt)) ;;
        match reply with
        | inl chat =>
            send (success_result req_id (content chat) format_ (usage chat))
        | inr e =>
            send (llm_error_result req_id e)
        end
    else
      send (error_result req_id (lit "NoSuchMethod")
              (lit "Unknown method " ++ py_str method)).

Definition serve_one (raw : str) : M unit :=
  match json_loads raw with
  | inr JSONDecodeError =>
      send (error_result (VStr (lit "unknown")) (lit "BadJSON")
              (lit "Request must be JSON"))
  | inr e => eval (inr e)
  | inl msg => serve_decoded msg
  end.

(** *** The request loop: it ends when [ws.recv()] raises [ConnectionClosed] *)

Fixpoint serve (inbox : list str) : M unit :=
  match inbox with
  | [] => ret tt
  | raw :: rest => _ <- serve_one raw ;; serve rest
  end.

(** *** [handle(ws)] *)

Definition handle (inbox : list str) : M unit :=
  match inbox with
  | [] => eval (inr ConnectionClosed)
  | init_msg :: rest =>
      match json_loads init_msg with
      | inr JSONDecodeError =>
          send (error_result (VStr (lit "init")) (lit "BadJSON")
                  (lit "Initialize must be JSON"))
      | inr e => eval (inr e)
      | inl init =>
          _ <- send ready_announcement ;;
          serve rest
      end
  end.

(** What a run leaves behind: the events, the backend state, and either
    normal completion or the exception that escaped. *)
Definition outcome : Type := list event * World * (unit + exn).

(** The run [o], preceded by the events [l]. *)
Definition after (l : list event) (o : outcome) : outcome :=
  let '(l', w, r) := o in (l ++ l', w, r).


(** ** Observations on events *)

(** The frames sent, in order. *)
Fixpoint sends (l : list event) : list value :=
  match l with
  | [] => []
  | Send d :: l' => d :: sends l'
  | Call _ :: l' => sends l'
  end.

(** The backend calls made, in order. *)
Fixpoint calls (l : list event) : list call :=
  match l with
  | [] => []
  | Send _ :: l' => calls l'
  | Call c :: l' => c :: calls l'
  end.

(** The [type] member of a frame. *)
Definition frame_type (d : value) : value :=
  match d with
  | VDict m => dict_get m (lit "type") VNone
  | _ => VNone
  end.

(** A ResultEnvelope is a frame of type [result], a ReadyAnnouncement a
    frame of type [ready]. *)
Definition is_result (d : value) : bool := is_str (frame_type d) (lit "result").
Definition is_ready (d : value) : bool := is_str (frame_type d) (lit "ready").

(** The events of a run. *)
Definition events (o : outcome) : list event := fst (fst o).

(** Two dictionaries that agree on every key but [k]. *)
Definition agree_except (k : str) (d1 d2 : dict) : Prop :=
  forall k', k' <> k -> lookup k' d1 = lookup k' d2.

(** Anything but a dictionary. *)
Definition not_a_dict (v : value) : Prop :=
  match v with
  | VDict _ => False
  | _ => True
  end.

(** [d[k]] when [d] is a dictionary that has the key. *)
Definition member (k : str) (v : value) : option value :=
  match v with
  | VDict m => lookup k m
  | _ => None
  end.

(** [d["error"]["code"]] *)
Definition error_code (v : value) : option value :=
  match member (lit "error") v with
  | Some e => member (lit "code") e
  | None => None
  end.

(** The four error codes of the protocol. *)
Definition error_codes : list str :=
  [lit "BadJSON"; lit "BadRequest"; lit "NoSuchMethod"; lit "LLMError"].

(** * Properties *)

(** ** Strings and dictionaries *)

Lemma eqb_eq (a b : str) : Str.eqb a b = true <-> a = b.
Proof.
  revert b; induction a as [|x a IH]; intros [|y b]; simpl; split;
    try discriminate; try reflexivity.
  - intros H. apply andb_true_iff in H as [Hx Hab].
    apply N.eqb_eq in Hx. apply IH in Hab. congruence.
  - intros H. injection H as -> ->.
    rewrite N.eqb_refl. simpl. apply IH. reflexivity.
Qed.

Lemma eqb_refl (a : str) : Str.eqb a a = true.
Proof. apply eqb_eq. reflexivity. Qed.

Lemma is_str_true (v : value) (s : str) : is_str v s = true <-> v = VStr s.
Proof.
  destruct v; simpl; split; try discriminate.
  - intros H. apply eqb_eq in H. congruence.
  - intros H. injection H as ->. apply eqb_refl.
Qed.

Lemma is_str_false (v : value) (s : str) : is_str v s = false <-> v <> VStr s.
Proof.
  rewrite <- is_str_true. destruct (is_str v s); split; congruence.
Qed.

Lemma dict_get_present (d : dict) (k : str) (v default : value) :
  lookup k d = Some v -> dict_get d k default = v.
Proof. unfold dict_get. intros ->. reflexivity. Qed.

Lemma dict_get_absent (d : dict) (k : str) (default : value) :
  lookup k d = None -> dict_get d k default = default.
Proof. unfold dict_get. intros ->. reflexivity. Qed.

(** ** Blank strings: [not s.strip()] holds exactly of the blank ones *)

Lemma lstrip_nil (s : str) : lstrip s = [] <-> blank s = true.
Proof.
  induction s as [|c s IH]; simpl.
  - split; reflexivity.
  - destruct (isspace c); simpl.
    + exact IH.
    + split; discriminate.
Qed.

Lemma blank_rev (s : str) : blank (rev s) = blank s.
Proof.
  unfold blank. induction s as [|c s IH]; simpl.
  - reflexivity.
  - rewrite forallb_app, IH. simpl. rewrite andb_true_r. apply andb_comm.
Qed.

Lemma blank_lstrip (s : str) : blank (lstrip s) = blank s.
Proof.
  induction s as [|c s IH]; simpl.
  - reflexivity.
  - destruct (isspace c) eqn:E; simpl.
    + exact IH.
    + rewrite E. reflexivity.
Qed.

Lemma strip_nil (s : str) : strip s = [] <-> blank s = true.
Proof.
  unfold strip, rstrip. rewrite <- blank_lstrip, <- (blank_rev (lstrip s)).
  rewrite <- lstrip_nil. split.
  - intros H. apply (f_equal (@rev N)) in H. rewrite rev_involutive in H. exact H.
  - intros ->. reflexivity.
Qed.

Lemma is_empty_strip (s : str) : Str.is_empty (strip s) = blank s.
Proof.
  destruct (blank s) eqn:E.
  - apply strip_nil in E. rewrite E. reflexivity.
  - destruct (strip s) eqn:S; [|reflexivity].
    apply strip_nil in S. congruence.
Qed.


(** ** The loop, one iteration at a time *)

Lemma serve_cons (raw : str) (rest : list str) (w : World) :
  serve (raw :: rest) w =
  match serve_one raw w with
  | (l, w', inl _) => after l (serve rest w')
  | (l, w', inr e) => (l, w', inr e)
  end.
Proof.
  simpl. unfold bind, after.
  destruct (serve_one raw w) as [[l w'] [u|e]]; reflexivity.
Qed.

(** An iteration that completes hands the rest of the inbox to the loop. *)
Lemma serve_continues (raw : str) (rest : list str) (w w' : World) (l : list event) :
  serve_one raw w = (l, w', inl tt) ->
  serve (raw :: rest) w = after l (serve rest w').
Proof. intros H. rewrite serve_cons, H. reflexivity. Qed.

(** An iteration that raises ends the loop: the rest of the inbox is
    never read. *)
Lemma serve_stops (raw : str) (rest : list str) (w w' : World) (l : list event) (e : exn) :
  serve_one raw w = (l, w', inr e) ->
  serve (raw :: rest) w = (l, w', inr e).
Proof. intros H. rewrite serve_cons, H. reflexivity. Qed.

Lemma serve_one_decoded (raw : str) (msg : value) :
  json_loads raw = inl msg -> serve_one raw = serve_decoded msg.
Proof. unfold serve_one. intros ->. reflexivity. Qed.

(** ** C5: a frame that is not JSON, after the handshake *)

(** C5, amended. A frame of the request loop on which [json.loads] raises
    [JSONDecodeError] is answered with one result frame, [id] ["unknown"],
    [ok] false, [error.code] ["BadJSON"], and the loop goes on with the
    next frame. *)
Theorem bad_json_is_answered_and_survived
    (raw : str) (rest : list str) (w : World) :
  json_loads raw = inr JSONDecodeError ->
  let reply :=
    VDict [(lit "type", VStr (lit "result"));
           (lit "id", VStr (lit "unknown"));
           (lit "ok", VBool false);
           (lit "error", VDict [(lit "code", VStr (lit "BadJSON"));
                                (lit "message", VStr (lit "Request must be JSON"))])] in
  serve_one raw w = ([Send reply], w, inl tt) /\
  serve (raw :: rest) w = after [Send reply] (serve rest w).
Proof.
  intros H reply.
  assert (E : serve_one raw w = ([Send reply], w, inl tt)).
  { unfold serve_one. rewrite H. reflexivity. }
  split; [exact E | apply serve_continues; exact E].
Qed.


(** ** C8: a message that is not a request *)

(** C8. A decoded object whose [type] is not the string ["request"] is
    answered with one result frame, [ok] false, [error.code] ["BadRequest"],
    message ["Expected type=request"], whose [id] is the message's [id]
    member when it has one and ["unknown"] otherwise, and the loop goes on.
    When [type] is ["request"], a message without [id] is served as the
    same message with [id] ["unknown"], and a message without [params] as
    the same message with [params] the empty dictionary. *)
Theorem wrong_type_is_bad_request (d : dict) (w : World) :
  (dict_get d (lit "type") VNone <> VStr (lit "request") ->
   let id := match lookup (lit "id") d with
             | Some v => v
             | None => VStr (lit "unknown")
             end in
   let reply :=
     VDict [(lit "type", VStr (lit "result"));
            (lit "id", id);
            (lit "ok", VBool false);
            (lit "error", VDict [(lit "code", VStr (lit "BadRequest"));
                                 (lit "message", VStr (lit "Expected type=request"))])] in
   serve_decoded (VDict d) w = ([Send reply], w, inl tt) /\
   forall raw rest, json_loads raw = inl (VDict d) ->
     serve (raw :: rest) w = after [Send reply] (serve rest w)) /\
  (dict_get d (lit "type") VNone = VStr (lit "request") ->
   (lookup (lit "id") d = None ->
    serve_decoded (VDict d) w =
    serve_decoded (VDict ((lit "id", VStr (lit "unknown")) :: d)) w) /\
   (lookup (lit "params") d = None ->
    serve_decoded (VDict d) w =
    serve_decoded (VDict ((lit "params", VDict []) :: d)) w)).
Proof.
  split.
  - intros Hty id reply.
    assert (E : serve_decoded (VDict d) w = ([Send reply], w, inl tt)).
    { apply is_str_false in Hty. unfold serve_decoded, bind, eval. simpl.
      rewrite Hty. reflexivity. }
    split; [exact E|].
    intros raw rest Hraw. apply serve_continues.
    rewrite (serve_one_decoded Hraw). exact E.
  - intros Hty. split; intros Habs.
    + unfold serve_decoded. simpl py_get.
      unfold dict_get in *. simpl lookup. rewrite Habs. reflexivity.
    + unfold serve_decoded. simpl py_get.
      unfold dict_get in *. simpl lookup. rewrite Habs. reflexivity.
Qed.


(** ** C6: a request for a method the server does not have *)

(** C6. A decoded request (an object whose [type] is ["request"]) whose
    [method] is not the string ["llm.generate"], a missing method reading
    as [None], is answered with one result frame carrying the request's
    [id], [ok] false, [error.code] ["NoSuchMethod"] and the message
    ["Unknown method "] followed by [str(method)], which is the method
    itself when it is a string and ["None"] when it is missing; the loop
    goes on with the next frame. *)
Theorem unknown_method_is_reported (d : dict) (w : World) :
  dict_get d (lit "type") VNone = VStr (lit "request") ->
  dict_get d (lit "method") VNone <> VStr (lit "llm.generate") ->
  let id := match lookup (lit "id") d with
            | Some v => v
            | None => VStr (lit "unknown")
            end in
  let method := match lookup (lit "method") d with
                | Some v => v
                | None => VNone
                end in
  let reply :=
    VDict [(lit "type", VStr (lit "result"));
           (lit "id", id);
           (lit "ok", VBool false);
           (lit "error",
            VDict [(lit "code", VStr (lit "NoSuchMethod"));
                   (lit "message", VStr (lit "Unknown method " ++ py_str method))])] in
  serve_decoded (VDict d) w = ([Send reply], w, inl tt) /\
  (forall raw rest, json_loads raw = inl (VDict d) ->
     serve (raw :: rest) w = after [Send reply] (serve rest w)) /\
  (forall m, lookup (lit "method") d = Some (VStr m) ->
     lit "Unknown method " ++ py_str method = lit "Unknown method " ++ m) /\
  (lookup (lit "method") d = None ->
     lit "Unknown method " ++ py_str method = lit "Unknown method None").
Proof.
  intros Hty Hm id method reply.
  assert (E : serve_decoded (VDict d) w = ([Send reply], w, inl tt)).
  { apply is_str_false in Hm. unfold serve_decoded, bind, eval. simpl.
    rewrite Hty, Hm. reflexivity. }
  split; [exact E|]. split.
  - intros raw rest Hraw. apply serve_continues.
    rewrite (serve_one_decoded Hraw). exact E.
  - subst method. split.
    + intros m ->. reflexivity.
    + intros ->. reflexivity.
Qed.


(** ** The [llm.generate] branch, step by step *)

(** The run of a decoded [llm.generate] request whose [params] is a
    dictionary: the coercion of the temperature comes first, then the
    blankness test of the prompt, then the backend call. *)
Lemma generate_steps (d p : dict) (w : World) :
  dict_get d (lit "type") VNone = VStr (lit "request") ->
  dict_get d (lit "method") VNone = VStr (lit "llm.generate") ->
  dict_get d (lit "params") (VDict []) = VDict p ->
  let req_id := dict_get d (lit "id") (VStr (lit "unknown")) in
  let prompt := dict_get p (lit "prompt") (VStr []) in
  let system := dict_get p (lit "system") (VStr (lit "You are a helpful assistant.")) in
  let model := dict_get p (lit "model") (VStr OPENAI_MODEL) in
  let format_ := dict_get p (lit "format") (VStr (lit "markdown")) in
  serve_decoded (VDict d) w =
  match py_float (dict_get p (lit "temperature") (VFloat default_temperature)) with
  | inr e => ([], w, inr e)
  | inl temperature =>
      match py_strip prompt with
      | inr e => ([], w, inr e)
      | inl stripped =>
          if Str.is_empty stripped then
            ([Send (error_result req_id (lit "BadRequest") (lit "prompt is required"))],
             w, inl tt)
          else
            let c := Create model temperature (chat_messages system prompt) in
            match create w c with
            | (inl chat, w') =>
                ([Call c; Send (success_result req_id (content chat) format_ (usage chat))],
                 w', inl tt)
            | (inr e, w') =>
                ([Call c; Send (llm_error_result req_id e)], w', inl tt)
            end
      end
  end.
Proof.
  intros Hty Hm Hp req_id prompt system model format_.
  unfold serve_decoded, bind, eval, oai_create, send, py_get.
  rewrite Hty, Hm, Hp.
  change (is_str (VStr (lit "request")) (lit "request")) with true.
  change (is_str (VStr (lit "llm.generate")) (lit "llm.generate")) with true.
  cbn [negb app]. fold prompt system model format_ req_id.
  destruct (py_float _) as [temperature|e]; [|reflexivity].
  destruct (py_strip prompt) as [stripped|e]; [|reflexivity].
  destruct (Str.is_empty stripped); [reflexivity|].
  destruct (create w _) as [[chat|e] w']; reflexivity.
Qed.


(** ** C7: a successful generation *)

(** C7, amended. Take a decoded request [{type:"request", id,
    method:"llm.generate", params}] whose [params] is a dictionary with a
    non-blank string [prompt] and a [temperature] that, when given, coerces
    to a float, and suppose the backend answers the call with a completion.
    Then the iteration makes one call and sends one result frame with the
    request's [id], [ok] true and [data] made of the completion's text,
    the [format] parameter (["markdown"] when absent) and the completion's
    usage dictionary (the empty dictionary when it reports none), and the
    loop goes on. The call carries the [model] parameter (the configured
    model when absent), the coerced [temperature] (0.2 when absent) and
    the two chat messages: the [system] parameter (["You are a helpful
    assistant."] when absent) and the prompt. *)
Theorem generate_success
    (d p : dict) (s : str) (t : float) (chat : completion) (w w' : World) :
  dict_get d (lit "type") VNone = VStr (lit "request") ->
  dict_get d (lit "method") VNone = VStr (lit "llm.generate") ->
  dict_get d (lit "params") (VDict []) = VDict p ->
  dict_get p (lit "prompt") (VStr []) = VStr s ->
  blank s = false ->
  py_float match lookup (lit "temperature") p with
           | Some v => v
           | None => VFloat 0.2%float
           end = inl t ->
  let c := Create
             match lookup (lit "model") p with
             | Some v => v
             | None => VStr OPENAI_MODEL
             end
             t
             (VList [VDict [(lit "role", VStr (lit "system"));
                            (lit "content",
                             match lookup (lit "system") p with
                             | Some v => v
                             | None => VStr (lit "You are a helpful assistant.")
                             end)];
                     VDict [(lit "role", VStr (lit "user"));
                            (lit "content", VStr s)]]) in
  create w c = (inl chat, w') ->
  let id := match lookup (lit "id") d with
            | Some v => v
            | None => VStr (lit "unknown")
            end in
  let format_ := match lookup (lit "format") p with
                 | Some v => v
                 | None => VStr (lit "markdown")
                 end in
  let data := VDict [(lit "text", content chat);
                     (lit "format", format_);
                     (lit "usage", VDict match usage chat with
                                         | Some u => u
                                         | None => []
                                         end)] in
  let reply := VDict [(lit "type", VStr (lit "result")); (lit "id", id);
                      (lit "ok", VBool true); (lit "data", data)] in
  serve_decoded (VDict d) w = ([Call c; Send reply], w', inl tt) /\
  (lookup (lit "temperature") p = None -> t = 0.2%float) /\
  forall raw rest, json_loads raw = inl (VDict d) ->
    serve (raw :: rest) w = after [Call c; Send reply] (serve rest w').
Proof.
  intros Hty Hm Hp Hs Hb Ht c Hc id format_ data reply.
  assert (E : serve_decoded (VDict d) w = ([Call c; Send reply], w', inl tt)).
  { rewrite (@generate_steps d p w Hty Hm Hp), Hs.
    change (dict_get p (lit "temperature") (VFloat default_temperature))
      with (match lookup (lit "temperature") p with
            | Some v => v
            | None => VFloat 0.2%float
            end).
    rewrite Ht. simpl py_strip. cbv iota. rewrite is_empty_strip, Hb.
    cbv zeta. subst c. unfold chat_messages, dict_get. unfold dict_get in Hc.
    rewrite Hc. reflexivity. }
  split; [exact E|]. split.
  - intros Habs. rewrite Habs in Ht. simpl in Ht. congruence.
  - intros raw rest Hraw. apply serve_continues.
    rewrite (serve_one_decoded Hraw). exact E.
Qed.


(** ** C3: a blank prompt *)

(** C3, amended. A decoded [llm.generate] request whose [params] is a
    dictionary, whose [prompt] is a blank string (empty, or whitespace
    only; a missing prompt reads as the empty string) and whose
    [temperature], when given, can be coerced to a float, is answered with
    one result frame carrying the request's [id], [ok] false, [error.code]
    ["BadRequest"] and the message ["prompt is required"]; the backend is
    not called and the loop goes on with the next frame. *)
Theorem blank_prompt_is_bad_request
    (d p : dict) (s : str) (t : float) (w : World) :
  dict_get d (lit "type") VNone = VStr (lit "request") ->
  dict_get d (lit "method") VNone = VStr (lit "llm.generate") ->
  dict_get d (lit "params") (VDict []) = VDict p ->
  dict_get p (lit "prompt") (VStr []) = VStr s ->
  blank s = true ->
  py_float (dict_get p (lit "temperature") (VFloat default_temperature)) = inl t ->
  let id := match lookup (lit "id") d with
            | Some v => v
            | None => VStr (lit "unknown")
            end in
  let reply :=
    VDict [(lit "type", VStr (lit "result"));
           (lit "id", id);
           (lit "ok", VBool false);
           (lit "error", VDict [(lit "code", VStr (lit "BadRequest"));
                                (lit "message", VStr (lit "prompt is required"))])] in
  serve_decoded (VDict d) w = ([Send reply], w, inl tt) /\
  calls (events (serve_decoded (VDict d) w)) = [] /\
  forall raw rest, json_loads raw = inl (VDict d) ->
    serve (raw :: rest) w = after [Send reply] (serve rest w).
Proof.
  intros Hty Hm Hp Hs Hb Ht id reply.
  assert (E : serve_decoded (VDict d) w = ([Send reply], w, inl tt)).
  { rewrite (@generate_steps d p w Hty Hm Hp), Ht, Hs. simpl py_strip.
    cbv iota. rewrite is_empty_strip, Hb. reflexivity. }
  split; [exact E|]. split; [rewrite E; reflexivity|].
  intros raw rest Hraw. apply serve_continues.
  rewrite (serve_one_decoded Hraw). exact E.
Qed.

(** ** C9: the prompt reaches the backend as it was sent *)

(** C9, amended. A decoded [llm.generate] request whose [params] is a
    dictionary, whose [prompt] is a string with at least one character
    that is not whitespace and whose [temperature], when given, can be
    coerced to a float, makes exactly one backend call, and the user
    message of that call holds the prompt as supplied, surrounding
    whitespace included: [strip] serves the blankness test only. *)
Theorem prompt_is_passed_unstripped
    (d p : dict) (s : str) (t : float) (w : World) :
  dict_get d (lit "type") VNone = VStr (lit "request") ->
  dict_get d (lit "method") VNone = VStr (lit "llm.generate") ->
  dict_get d (lit "params") (VDict []) = VDict p ->
  dict_get p (lit "prompt") (VStr []) = VStr s ->
  blank s = false ->
  py_float (dict_get p (lit "temperature") (VFloat default_temperature)) = inl t ->
  exists c,
    calls (events (serve_decoded (VDict d) w)) = [c] /\
    exists system,
      messages c =
      VList [VDict [(lit "role", VStr (lit "system")); (lit "content", system)];
             VDict [(lit "role", VStr (lit "user")); (lit "content", VStr s)]].
Proof.
  intros Hty Hm Hp Hs Hb Ht.
  rewrite (@generate_steps d p w Hty Hm Hp), Ht, Hs. simpl py_strip.
  cbv iota. rewrite is_empty_strip, Hb. cbv zeta.
  set (c := Create _ _ _).
  exists c. split.
  - destruct (create w c) as [[chat|e] w']; reflexivity.
  - eexists. reflexivity.
Qed.

(** ** C2: a temperature that [float] rejects *)

(** C2, as the code runs. The temperature is coerced before the [try]: on
    a decoded [llm.generate] request whose [params] is a dictionary and
    whose [temperature] makes [float] raise [e], the iteration sends
    nothing and raises [e]; the exception leaves the loop and [handle], and
    the frames that follow are never served. *)
Theorem uncoercible_temperature_escapes
    (d p : dict) (e : exn) (w : World) :
  dict_get d (lit "type") VNone = VStr (lit "request") ->
  dict_get d (lit "method") VNone = VStr (lit "llm.generate") ->
  dict_get d (lit "params") (VDict []) = VDict p ->
  py_float (dict_get p (lit "temperature") (VFloat default_temperature)) = inr e ->
  serve_decoded (VDict d) w = ([], w, inr e) /\
  forall raw rest, json_loads raw = inl (VDict d) ->
    serve (raw :: rest) w = ([], w, inr e) /\
    forall init v, json_loads init = inl v ->
      handle (init :: raw :: rest) w = ([Send ready_announcement], w, inr e).
Proof.
  intros Hty Hm Hp Ht.
  assert (E : serve_decoded (VDict d) w = ([], w, inr e)).
  { rewrite (@generate_steps d p w Hty Hm Hp), Ht. reflexivity. }
  split; [exact E|].
  intros raw rest Hraw.
  assert (S : serve (raw :: rest) w = ([], w, inr e)).
  { apply serve_stops. rewrite (serve_one_decoded Hraw). exact E. }
  split; [exact S|].
  intros init v Hinit. unfold handle. rewrite Hinit.
  unfold bind, send. rewrite S. reflexivity.
Qed.

(** ** C1: a frame that decodes to something other than an object *)

(** C1, as the code runs. A frame of the request loop that decodes to a
    JSON value other than an object (a list, a string, a number, a
    boolean, null) gets no reply: [msg.get] raises [AttributeError], the
    iteration sends nothing, and the exception leaves the loop and
    [handle] with the frames that follow unserved. *)
Theorem non_object_message_gets_no_reply (msg : value) (w : World) :
  not_a_dict msg ->
  serve_decoded msg w = ([], w, inr AttributeError) /\
  forall raw rest, json_loads raw = inl msg ->
    sends (events (serve_one raw w)) = [] /\
    serve (raw :: rest) w = ([], w, inr AttributeError) /\
    forall init v, json_loads init = inl v ->
      handle (init :: raw :: rest) w =
      ([Send ready_announcement], w, inr AttributeError).
Proof.
  intros Hmsg.
  assert (E : serve_decoded msg w = ([], w, inr AttributeError)).
  { destruct msg; try reflexivity. destruct Hmsg. }
  split; [exact E|].
  intros raw rest Hraw.
  assert (S : serve (raw :: rest) w = ([], w, inr AttributeError)).
  { apply serve_stops. rewrite (serve_one_decoded Hraw). exact E. }
  split; [rewrite (serve_one_decoded Hraw), E; reflexivity|].
  split; [exact S|].
  intros init v Hinit. unfold handle. rewrite Hinit.
  unfold bind, send. rewrite S. reflexivity.
Qed.


(** ** What one iteration can do *)

(** An iteration either raises before it has sent or called anything, or
    sends one result frame, or calls the backend once and then sends one
    result frame. *)
Lemma serve_decoded_shape (msg : value) (w : World) :
  (exists e, serve_decoded msg w = ([], w, inr e)) \/
  (exists v, is_result v = true /\ serve_decoded msg w = ([Send v], w, inl tt)) \/
  (exists c v, is_result v = true /\
     serve_decoded msg w = ([Call c; Send v], snd (create w c), inl tt)).
Proof.
  destruct msg as [| | | | | |d]; try (left; eexists; reflexivity).
  unfold serve_decoded, bind, eval, oai_create, send, py_get.
  destruct (is_str (dict_get d (lit "type") VNone) (lit "request")); cbn [negb].
  2: { right; left. eexists. split; [|reflexivity]. reflexivity. }
  destruct (is_str (dict_get d (lit "method") VNone) (lit "llm.generate")).
  2: { right; left. eexists. split; [|reflexivity]. reflexivity. }
  destruct (dict_get d (lit "params") (VDict [])) as [| | | | | |p];
    try (left; eexists; reflexivity).
  destruct (py_float _) as [t|e]; [|left; eexists; reflexivity].
  destruct (py_strip _) as [s|e]; [|left; eexists; reflexivity].
  destruct (Str.is_empty s).
  { right; left. eexists. split; [|reflexivity]. reflexivity. }
  right; right.
  match goal with |- context [create w ?c0] => exists c0 end.
  destruct (create w _) as [[chat|e] w'];
    eexists; (split; [|reflexivity]); reflexivity.
Qed.

Lemma serve_one_shape (raw : str) (w : World) :
  (exists e, serve_one raw w = ([], w, inr e)) \/
  (exists v, is_result v = true /\ serve_one raw w = ([Send v], w, inl tt)) \/
  (exists c v, is_result v = true /\
     serve_one raw w = ([Call c; Send v], snd (create w c), inl tt)).
Proof.
  unfold serve_one. destruct (json_loads raw) as [msg|e].
  - apply serve_decoded_shape.
  - destruct e; try (left; eexists; reflexivity).
    right; left. eexists. split; [|reflexivity]. reflexivity.
Qed.

(** Every frame the loop sends is a result frame. *)
Lemma serve_sends_results (inbox : list str) (w : World) :
  Forall (fun v => is_result v = true) (sends (events (serve inbox w))).
Proof.
  revert w. induction inbox as [|raw rest IH]; intros w.
  - constructor.
  - rewrite serve_cons.
    destruct (serve_one_shape raw w) as [[e E]|[[v [Hv E]]|[c [v [Hv E]]]]];
      rewrite E.
    + constructor.
    + specialize (IH w). unfold after.
      destruct (serve rest w) as [[l w1] r]. simpl in *.
      constructor; assumption.
    + specialize (IH (snd (create w c))). unfold after.
      destruct (serve rest (snd (create w c))) as [[l w1] r]. simpl in *.
      constructor; assumption.
Qed.

Lemma result_is_not_ready (v : value) : is_result v = true -> is_ready v = false.
Proof.
  unfold is_result, is_ready. intros H. apply is_str_true in H.
  rewrite H. reflexivity.
Qed.

Lemma no_ready_among_results (l : list value) :
  Forall (fun v => is_result v = true) l -> filter is_ready l = [].
Proof.
  induction 1 as [|v l Hv _ IH]; simpl.
  - reflexivity.
  - rewrite (result_is_not_ready _ Hv). exact IH.
Qed.

(** ** C4: the handshake *)

(** C4, amended. When [json.loads] raises [JSONDecodeError] on the first
    frame, [handle] sends one result frame, [id] ["init"], [ok] false,
    [error.code] ["BadJSON"], and returns: no ready frame is sent and the
    frames that follow are never read. When the first frame decodes,
    whatever it decodes to, [handle] sends the ready frame [{type:"ready",
    server, capabilities:["llm.generate"]}] and enters the loop, and that
    frame is the only ready frame of the session. When [json.loads] raises
    anything else, the handler of line 28 does not catch it: nothing is
    sent and the exception leaves [handle]. *)
Theorem handshake_decides (init : str) (rest : list str) (w : World) :
  match json_loads init with
  | inr JSONDecodeError =>
      handle (init :: rest) w =
      ([Send (VDict [(lit "type", VStr (lit "result"));
                     (lit "id", VStr (lit "init"));
                     (lit "ok", VBool false);
                     (lit "error",
                      VDict [(lit "code", VStr (lit "BadJSON"));
                             (lit "message", VStr (lit "Initialize must be JSON"))])])],
       w, inl tt)
  | inr e => handle (init :: rest) w = ([], w, inr e)
  | inl _ =>
      let ready := VDict [(lit "type", VStr (lit "ready"));
                          (lit "server", VStr (lit "sample-mcp-server"));
                          (lit "capabilities", VList [VStr (lit "llm.generate")])] in
      handle (init :: rest) w = after [Send ready] (serve rest w) /\
      filter is_ready (sends (events (handle (init :: rest) w))) = [ready]
  end.
Proof.
  unfold handle. destruct (json_loads init) as [v|e]; [|destruct e; reflexivity].
  assert (E : (_ <- send ready_announcement ;; serve rest) w =
              after [Send ready_announcement] (serve rest w)).
  { unfold bind, send, after. destruct (serve rest w) as [[l w1] r]. reflexivity. }
  split; [exact E|].
  rewrite E. pose proof (serve_sends_results rest w) as H.
  unfold after. destruct (serve rest w) as [[l w1] r].
  unfold events in *. cbn [fst app sends] in *.
  apply no_ready_among_results in H.
  cbn [filter]. change (is_ready ready_announcement) with true. cbv iota.
  rewrite H. reflexivity.
Qed.


(** ** C10: the [format] parameter *)

Lemma lit_neq (a b : str) : Str.eqb a b = false -> a <> b.
Proof. intros H E. apply eqb_eq in E. congruence. Qed.

Lemma agree_dict_get (k k' : str) (d1 d2 : dict) (default : value) :
  agree_except k d1 d2 -> Str.eqb k' k = false ->
  dict_get d2 k' default = dict_get d1 k' default.
Proof.
  intros H E. unfold dict_get. rewrite (H k' (lit_neq E)). reflexivity.
Qed.

(** On a call answered by a completion, the frame sent carries the
    [format] parameter as it came, or ["markdown"]. *)
Lemma success_echoes_format
    (d p : dict) (c : call) (chat : completion) (w w' : World) :
  dict_get d (lit "params") (VDict []) = VDict p ->
  In (Call c) (events (serve_decoded (VDict d) w)) ->
  create w c = (inl chat, w') ->
  sends (events (serve_decoded (VDict d) w)) =
  [success_result (dict_get d (lit "id") (VStr (lit "unknown"))) (content chat)
     match lookup (lit "format") p with
     | Some v => v
     | None => VStr (lit "markdown")
     end
     (usage chat)].
Proof.
  intros Hp Hin Hc.
  destruct (is_str (dict_get d (lit "type") VNone) (lit "request")) eqn:T.
  2: { exfalso. revert Hin. unfold serve_decoded, bind, eval, send, py_get.
       rewrite T. simpl. intros [H|[]]. discriminate H. }
  destruct (is_str (dict_get d (lit "method") VNone) (lit "llm.generate")) eqn:G.
  2: { exfalso. revert Hin. unfold serve_decoded, bind, eval, send, py_get.
       rewrite T, G. simpl. intros [H|[]]. discriminate H. }
  apply is_str_true in T, G.
  rewrite (@generate_steps d p w T G Hp) in *.
  destruct (py_float _) as [t|e]; [|destruct Hin].
  destruct (py_strip _) as [s|e]; [|destruct Hin].
  destruct (Str.is_empty s).
  { exfalso. destruct Hin as [H|[]]. discriminate H. }
  cbv zeta in *. set (c0 := Create _ _ _) in *.
  assert (E : c = c0).
  { destruct (create w c0) as [[chat0|e0] w0]; simpl in Hin;
      destruct Hin as [H|[H|[]]]; congruence. }
  subst c. rewrite Hc. reflexivity.
Qed.

(** C10. Two decoded requests that differ at most in the [format] member
    of their [params] dictionaries (a request without [params] counting as
    one with the empty dictionary) make the same backend calls, leave the
    backend in the same state and end the iteration the same way; and
    whenever the call of either is answered by a completion, the frame
    sent is the [ok] true result whose [data.format] is that request's own
    [format] parameter, or ["markdown"] when it has none. *)
Theorem format_is_only_echoed (d1 d2 p1 p2 : dict) (w : World) :
  agree_except (lit "params") d1 d2 ->
  dict_get d1 (lit "params") (VDict []) = VDict p1 ->
  dict_get d2 (lit "params") (VDict []) = VDict p2 ->
  agree_except (lit "format") p1 p2 ->
  let run1 := serve_decoded (VDict d1) w in
  let run2 := serve_decoded (VDict d2) w in
  let echo d p chat :=
    VDict [(lit "type", VStr (lit "result"));
           (lit "id", match lookup (lit "id") d with
                      | Some v => v
                      | None => VStr (lit "unknown")
                      end);
           (lit "ok", VBool true);
           (lit "data",
            VDict [(lit "text", content chat);
                   (lit "format", match lookup (lit "format") p with
                                  | Some v => v
                                  | None => VStr (lit "markdown")
                                  end);
                   (lit "usage", VDict match usage chat with
                                       | Some u => u
                                       | None => []
                                       end)])] in
  calls (events run1) = calls (events run2) /\
  snd (fst run1) = snd (fst run2) /\
  snd run1 = snd run2 /\
  (forall c chat w', In (Call c) (events run1) -> create w c = (inl chat, w') ->
     sends (events run1) = [echo d1 p1 chat]) /\
  (forall c chat w', In (Call c) (events run2) -> create w c = (inl chat, w') ->
     sends (events run2) = [echo d2 p2 chat]).
Proof.
  intros Hd P1 P2 Hp run1 run2 echo.
  split; [|split; [|split; [|split]]].
  4: { intros c chat w'. apply success_echoes_format. exact P1. }
  4: { intros c chat w'. apply success_echoes_format. exact P2. }
  all: subst run1 run2; unfold serve_decoded, bind, eval, oai_create, send, py_get;
    rewrite P1, P2;
    rewrite (@agree_dict_get _ (lit "type") _ _ VNone Hd eq_refl),
            (@agree_dict_get _ (lit "method") _ _ VNone Hd eq_refl),
            (@agree_dict_get _ (lit "prompt") _ _ (VStr []) Hp eq_refl),
            (@agree_dict_get _ (lit "temperature") _ _
               (VFloat default_temperature) Hp eq_refl),
            (@agree_dict_get _ (lit "system") _ _
               (VStr (lit "You are a helpful assistant.")) Hp eq_refl),
            (@agree_dict_get _ (lit "model") _ _ (VStr OPENAI_MODEL) Hp eq_refl);
    destruct (is_str (dict_get d1 (lit "type") VNone) (lit "request"));
    cbn [negb]; try reflexivity;
    destruct (is_str (dict_get d1 (lit "method") VNone) (lit "llm.generate"));
    try reflexivity;
    destruct (py_float _) as [t|e]; try reflexivity;
    destruct (py_strip _) as [s|e]; try reflexivity;
    destruct (Str.is_empty s); try reflexivity;
    destruct (create w _) as [[chat|e] w']; reflexivity.
Qed.


(** ** One reply for each frame served to the end *)

(** X13. An iteration that completes has sent exactly one frame, a result
    frame; an iteration that raises has sent none and has left the
    backend as it was. *)
Lemma completed_iteration_replied_once
    (raw : str) (w w' : World) (l : list event) (r : unit + exn) :
  serve_one raw w = (l, w', r) ->
  match r with
  | inl _ => exists v, sends l = [v] /\ is_result v = true
  | inr _ => l = [] /\ w' = w
  end.
Proof.
  intros H.
  destruct (serve_one_shape raw w) as [[e E]|[[v [Hv E]]|[c [v [Hv E]]]]];
    rewrite E in H; injection H as <- <- <-.
  - split; reflexivity.
  - exists v. split; [reflexivity | exact Hv].
  - exists v. split; [reflexivity | exact Hv].
Qed.

(** When the peer has closed, the loop ends without sending anything. *)
Lemma closed_transport_ends_loop (w : World) : serve [] w = ([], w, inl tt).
Proof. reflexivity. Qed.


(** * Further properties of the session *)

(** ** A backend call that fails *)

(** X1. When serving a decoded [llm.generate] request with a non-blank
    string prompt calls the backend and the call raises, the iteration
    makes that one call and sends one result frame with the request's [id],
    [ok] false, [error.code] ["LLMError"], [str(e)] as message and the last
    five lines of the traceback as trace; the backend state moves on and
    the loop goes on with the next frame. *)
Theorem backend_failure_is_reported
    (d p : dict) (s : str) (c : call) (f : failure) (w w' : World) :
  dict_get d (lit "type") VNone = VStr (lit "request") ->
  dict_get d (lit "method") VNone = VStr (lit "llm.generate") ->
  dict_get d (lit "params") (VDict []) = VDict p ->
  dict_get p (lit "prompt") (VStr []) = VStr s ->
  blank s = false ->
  In (Call c) (events (serve_decoded (VDict d) w)) ->
  create w c = (inr f, w') ->
  let error :=
    VDict [(lit "code", VStr (lit "LLMError"));
           (lit "message", VStr (str_e f));
           (lit "trace", VList (map VStr (skipn (List.length (format_exc_lines f) - 5)
                                             (format_exc_lines f))))] in
  let reply := VDict [(lit "type", VStr (lit "result"));
                      (lit "id", dict_get d (lit "id") (VStr (lit "unknown")));
                      (lit "ok", VBool false); (lit "error", error)] in
  serve_decoded (VDict d) w = ([Call c; Send reply], w', inl tt) /\
  forall raw rest, json_loads raw = inl (VDict d) ->
    serve (raw :: rest) w = after [Call c; Send reply] (serve rest w').
Proof.
  intros Hty Hm Hp Hs Hb Hin Hc error reply.
  assert (E : serve_decoded (VDict d) w = ([Call c; Send reply], w', inl tt)).
  { rewrite (@generate_steps d p w Hty Hm Hp) in *. rewrite Hs in *.
    destruct (py_float _) as [t|e]; [|destruct Hin].
    simpl py_strip in *. cbv iota in *. rewrite is_empty_strip, Hb in *.
    cbv zeta in *. set (c0 := Create _ _ _) in *.
    assert (Ec : c = c0).
    { destruct (create w c0) as [[chat0|e0] w0]; simpl in Hin;
        destruct Hin as [H|[H|[]]]; congruence. }
    subst c. rewrite Hc. reflexivity. }
  split; [exact E|].
  intros raw rest Hraw. apply serve_continues.
  rewrite (serve_one_decoded Hraw). exact E.
Qed.

(** X2. The trace of an [LLMError] reply never has more than five lines:
    it is the end of the traceback, in order, all of it when the traceback
    has five lines or fewer. *)
Theorem trace_is_the_last_five_lines (id : value) (f : failure) :
  exists trace earlier,
    (match member (lit "error") (llm_error_result id f) with
     | Some e => member (lit "trace") e
     | None => None
     end) = Some (VList (map VStr trace)) /\
    format_exc_lines f = earlier ++ trace /\
    List.length trace = Nat.min 5 (List.length (format_exc_lines f)) /\
    (List.length (format_exc_lines f) <= 5 -> trace = format_exc_lines f).
Proof.
  exists (last5 (format_exc_lines f)),
         (firstn (List.length (format_exc_lines f) - 5) (format_exc_lines f)).
  unfold last5. split; [reflexivity|]. split; [|split].
  - symmetry. apply firstn_skipn.
  - rewrite length_skipn. lia.
  - intros H. replace (List.length (format_exc_lines f) - 5) with 0 by lia.
    reflexivity.
Qed.

(** ** When the backend is called *)

(** X3. The backend is called only for a decoded object of [type]
    ["request"] and [method] ["llm.generate"] whose [params] is a
    dictionary, whose [temperature] coerces to a float and whose [prompt]
    is a string that is not blank; the call then carries the [model]
    parameter or the configured model, that float, and the two chat
    messages with the prompt unchanged. No other frame reaches the
    backend. *)
Theorem backend_is_called_only_for_a_prompt (msg : value) (c : call) (w : World) :
  In (Call c) (events (serve_decoded msg w)) ->
  exists d p s t,
    msg = VDict d /\
    dict_get d (lit "type") VNone = VStr (lit "request") /\
    dict_get d (lit "method") VNone = VStr (lit "llm.generate") /\
    dict_get d (lit "params") (VDict []) = VDict p /\
    dict_get p (lit "prompt") (VStr []) = VStr s /\
    blank s = false /\
    py_float (dict_get p (lit "temperature") (VFloat default_temperature)) = inl t /\
    c = Create (dict_get p (lit "model") (VStr OPENAI_MODEL)) t
          (chat_messages
             (dict_get p (lit "system") (VStr (lit "You are a helpful assistant.")))
             (VStr s)).
Proof.
  intros Hin.
  destruct msg as [| | | | | |d]; try (destruct Hin).
  destruct (is_str (dict_get d (lit "type") VNone) (lit "request")) eqn:T.
  2: { exfalso. revert Hin. unfold serve_decoded, bind, eval, send, py_get.
       rewrite T. simpl. intros [H|[]]. discriminate H. }
  destruct (is_str (dict_get d (lit "method") VNone) (lit "llm.generate")) eqn:G.
  2: { exfalso. revert Hin. unfold serve_decoded, bind, eval, send, py_get.
       rewrite T, G. simpl. intros [H|[]]. discriminate H. }
  apply is_str_true in T, G.
  destruct (dict_get d (lit "params") (VDict [])) as [| | | | | |p] eqn:P;
    try (exfalso; revert Hin; unfold serve_decoded, bind, eval, send, py_get;
         rewrite T, G, P; simpl; intros []).
  rewrite (@generate_steps d p w T G P) in Hin.
  destruct (py_float _) as [t|e] eqn:F; [|destruct Hin].
  destruct (dict_get p (lit "prompt") (VStr [])) as [| | | |s| |] eqn:S;
    try (destruct Hin).
  simpl py_strip in Hin. cbv iota in Hin. rewrite is_empty_strip in Hin.
  destruct (blank s) eqn:B.
  { exfalso. destruct Hin as [H|[]]. discriminate H. }
  exists d, p, s, t. repeat (split; [solve [reflexivity | assumption]|]).
  cbv zeta in Hin.
  destruct (create w _) as [[chat0|e0] w0]; simpl in Hin;
    destruct Hin as [H|[H|[]]]; congruence.
Qed.


(** ** What every reply looks like *)

(** Serving a decoded object sends, if anything, one of the five reply
    dictionaries of the loop, each built on the message's [id]. *)
Lemma reply_forms (d : dict) (w : World) (v : value) :
  In (Send v) (events (serve_decoded (VDict d) w)) ->
  let id := dict_get d (lit "id") (VStr (lit "unknown")) in
  v = error_result id (lit "BadRequest") (lit "Expected type=request") \/
  v = error_result id (lit "NoSuchMethod")
        (lit "Unknown method " ++ py_str (dict_get d (lit "method") VNone)) \/
  v = error_result id (lit "BadRequest") (lit "prompt is required") \/
  (exists c chat p, fst (create w c) = inl chat /\
     events (serve_decoded (VDict d) w) = [Call c; Send v] /\
     dict_get d (lit "params") (VDict []) = VDict p /\
     v = success_result id (content chat)
           (dict_get p (lit "format") (VStr (lit "markdown"))) (usage chat)) \/
  (exists c f, fst (create w c) = inr f /\
     events (serve_decoded (VDict d) w) = [Call c; Send v] /\
     v = llm_error_result id f).
Proof.
  intros Hin id. revert Hin.
  unfold serve_decoded, bind, eval, oai_create, send, py_get.
  destruct (is_str (dict_get d (lit "type") VNone) (lit "request")); cbn [negb].
  2: { simpl. intros [H|[]]. injection H as <-. left. reflexivity. }
  destruct (is_str (dict_get d (lit "method") VNone) (lit "llm.generate")).
  2: { simpl. intros [H|[]]. injection H as <-. right; left. reflexivity. }
  destruct (dict_get d (lit "params") (VDict [])) as [| | | | | |p];
    try (simpl; intros []).
  destruct (py_float _) as [t|e]; [|simpl; intros []].
  destruct (py_strip _) as [s|e]; [|simpl; intros []].
  destruct (Str.is_empty s).
  { simpl. intros [H|[]]. injection H as <-. right; right; left. reflexivity. }
  match goal with |- context [create w ?c0] => set (c := c0) end.
  destruct (create w c) as [[chat|f] w'] eqn:C; simpl;
    intros [H|[H|[]]]; try discriminate H; injection H as <-.
  - right; right; right; left. exists c, chat, p. rewrite C. repeat split.
  - right; right; right; right. exists c, f. rewrite C. repeat split.
Qed.

(** X4. Whatever the branch, a frame sent in reply to a decoded object
    carries that object's [id], or ["unknown"] when it has none. *)
Theorem replies_carry_the_request_id (d : dict) (w : World) (v : value) :
  In (Send v) (events (serve_decoded (VDict d) w)) ->
  member (lit "id") v =
  Some (match lookup (lit "id") d with
        | Some id => id
        | None => VStr (lit "unknown")
        end).
Proof.
  intros Hin.
  destruct (reply_forms _ _ _ Hin)
    as [->|[->|[->|[(c & chat & p & _ & _ & _ & ->)|(c & f & _ & _ & ->)]]]];
    reflexivity.
Qed.

(** X5. Every frame the loop sends for a text frame is a dictionary of
    [type] ["result"] that holds either [ok] true with a [data] of
    [text], [format] and [usage] and no [error], or [ok] false with no
    [data] and an [error] whose code is one of ["BadJSON"], ["BadRequest"],
    ["NoSuchMethod"] and ["LLMError"]. *)
Theorem replies_are_well_formed (raw : str) (w : World) (v : value) :
  In (Send v) (events (serve_one raw w)) ->
  member (lit "type") v = Some (VStr (lit "result")) /\
  ((member (lit "ok") v = Some (VBool true) /\
    member (lit "error") v = None /\
    exists text format_ u,
      member (lit "data") v =
      Some (VDict [(lit "text", text); (lit "format", format_);
                   (lit "usage", VDict u)])) \/
   (member (lit "ok") v = Some (VBool false) /\
    member (lit "data") v = None /\
    exists code, error_code v = Some (VStr code) /\ In code error_codes)).
Proof.
  unfold serve_one. destruct (json_loads raw) as [msg|e].
  2: { destruct e; try (simpl; intros F; contradiction).
       simpl. intros [H|[]]. injection H as <-.
       split; [reflexivity|]. right. repeat split.
       eexists. split; [reflexivity|]. left. reflexivity. }
  destruct msg as [| | | | | |d]; try (intros []).
  intros Hin.
  destruct (reply_forms _ _ _ Hin)
    as [->|[->|[->|[(c & chat & p & _ & _ & _ & ->)|(c & f & _ & _ & ->)]]]];
    (split; [reflexivity|]).
  - right. repeat split. eexists. split; [reflexivity|]. right; left. reflexivity.
  - right. repeat split. eexists. split; [reflexivity|].
    right; right; left. reflexivity.
  - right. repeat split. eexists. split; [reflexivity|]. right; left. reflexivity.
  - left. repeat split. do 3 eexists. reflexivity.
  - right. repeat split. eexists. split; [reflexivity|].
    right; right; right; left. reflexivity.
Qed.

(** X6. A reply says [ok] true only when the iteration called the backend
    and the call returned a completion, whose text the reply carries. *)
Theorem success_only_after_a_completion (d : dict) (w : World) (v : value) :
  In (Send v) (events (serve_decoded (VDict d) w)) ->
  member (lit "ok") v = Some (VBool true) ->
  exists c chat,
    fst (create w c) = inl chat /\
    events (serve_decoded (VDict d) w) = [Call c; Send v] /\
    (match member (lit "data") v with
     | Some data => member (lit "text") data
     | None => None
     end) = Some (content chat).
Proof.
  intros Hin Hok.
  destruct (reply_forms _ _ _ Hin)
    as [->|[->|[->|[(c & chat & p & C & E & _ & ->)|(c & f & _ & _ & ->)]]]];
    try discriminate Hok.
  exists c, chat. repeat split; assumption.
Qed.


(** ** When an iteration raises *)

(** X7. Serving a decoded message raises exactly in these cases: the
    message is not an object ([AttributeError]); or it is an
    [llm.generate] request and its [params] is not an object
    ([AttributeError]), or [float] rejects its temperature (the exception
    of [float], whatever the prompt is), or the temperature coerces and
    its [prompt] is not a string ([AttributeError]). In every other case
    the iteration completes. *)
Theorem iteration_raises_iff (msg : value) (w : World) (e : exn) :
  snd (serve_decoded msg w) = inr e <->
  match msg with
  | VDict d =>
      dict_get d (lit "type") VNone = VStr (lit "request") /\
      dict_get d (lit "method") VNone = VStr (lit "llm.generate") /\
      match dict_get d (lit "params") (VDict []) with
      | VDict p =>
          match py_float (dict_get p (lit "temperature") (VFloat default_temperature)) with
          | inr e' => e = e'
          | inl _ =>
              match dict_get p (lit "prompt") (VStr []) with
              | VStr _ => False
              | _ => e = AttributeError
              end
          end
      | _ => e = AttributeError
      end
  | _ => e = AttributeError
  end.
Proof.
  destruct msg as [| | | | | |d];
    try (simpl; split; [intros H; injection H as <-; reflexivity
                       | intros ->; reflexivity]).
  destruct (is_str (dict_get d (lit "type") VNone) (lit "request")) eqn:T.
  2: { split.
       - unfold serve_decoded, bind, eval, send, py_get. rewrite T. simpl.
         discriminate.
       - intros [H _]. apply is_str_true in H. congruence. }
  destruct (is_str (dict_get d (lit "method") VNone) (lit "llm.generate")) eqn:G.
  2: { split.
       - unfold serve_decoded, bind, eval, send, py_get. rewrite T, G. simpl.
         discriminate.
       - intros [_ [H _]]. apply is_str_true in H. congruence. }
  pose proof T as T'. pose proof G as G'. apply is_str_true in T', G'.
  destruct (dict_get d (lit "params") (VDict [])) as [| | | | | |p] eqn:P;
    try (unfold serve_decoded, bind, eval, send, py_get; rewrite T, G, P; simpl;
         split; [intros H; injection H as <-; auto
                | intros (_ & _ & ->); reflexivity]).
  rewrite (@generate_steps d p w T' G' P).
  destruct (py_float _) as [t|e'].
  2: { simpl. split; [intros H; injection H as <-; auto
                     | intros (_ & _ & ->); reflexivity]. }
  destruct (dict_get p (lit "prompt") (VStr [])) as [| | | |s| |];
    try (simpl; split; [intros H; injection H as <-; auto
                       | intros (_ & _ & ->); reflexivity]).
  simpl py_strip. cbv iota. split.
  - destruct (Str.is_empty (strip s)); [discriminate|].
    cbv zeta. destruct (create w _) as [[chat|f] w']; discriminate.
  - intros (_ & _ & []).
Qed.

(** X8. A decoded object whose [params], when given, is an object, whose
    [temperature], when given, coerces to a float and whose [prompt], when
    given, is a string is always answered: whatever its [type] and
    [method] and whatever the backend does, the iteration sends exactly
    one result frame and completes. *)
Theorem well_typed_message_is_answered (d p : dict) (s : str) (t : float) (w : World) :
  dict_get d (lit "params") (VDict []) = VDict p ->
  dict_get p (lit "prompt") (VStr []) = VStr s ->
  py_float (dict_get p (lit "temperature") (VFloat default_temperature)) = inl t ->
  exists v,
    sends (events (serve_decoded (VDict d) w)) = [v] /\
    is_result v = true /\
    snd (serve_decoded (VDict d) w) = inl tt.
Proof.
  intros P S F.
  unfold serve_decoded, bind, eval, oai_create, send, py_get.
  destruct (is_str (dict_get d (lit "type") VNone) (lit "request")); cbn [negb].
  2: { eexists. repeat split. }
  destruct (is_str (dict_get d (lit "method") VNone) (lit "llm.generate")).
  2: { eexists. repeat split. }
  rewrite P, S, F. simpl py_strip. cbv iota.
  destruct (Str.is_empty (strip s)).
  { eexists. repeat split. }
  destruct (create w _) as [[chat|f] w']; eexists; repeat split.
Qed.

(** ** The loop over several frames *)

(** X9. Frames are served in the order they arrive, each to its end
    before the next is read: the loop over [l1 ++ l2] is the loop over
    [l1] followed, when that one completes, by the loop over [l2] from the
    backend state it left; when it raises, [l2] is never read. *)
Theorem serve_in_order (l1 l2 : list str) (w : World) :
  serve (l1 ++ l2) w =
  match serve l1 w with
  | (ev, w1, inl _) => after ev (serve l2 w1)
  | (ev, w1, inr e) => (ev, w1, inr e)
  end.
Proof.
  revert w. induction l1 as [|raw l1 IH]; intros w.
  - simpl. unfold ret, after. destruct (serve l2 w) as [[ev w2] r]. reflexivity.
  - rewrite <- app_comm_cons, !serve_cons.
    destruct (serve_one raw w) as [[ev0 w0] [u|e]]; [|reflexivity].
    rewrite IH. unfold after.
    destruct (serve l1 w0) as [[ev1 w1] [u1|e1]]; [|reflexivity].
    destruct (serve l2 w1) as [[ev2 w2] r2]. rewrite app_assoc. reflexivity.
Qed.

Lemma serve_counts (inbox : list str) (w : World) :
  List.length (sends (events (serve inbox w))) <= List.length inbox /\
  List.length (calls (events (serve inbox w))) <=
    List.length (sends (events (serve inbox w))) /\
  (snd (serve inbox w) = inl tt ->
   List.length (sends (events (serve inbox w))) = List.length inbox).
Proof.
  revert w. induction inbox as [|raw rest IH]; intros w.
  - simpl. repeat split; lia.
  - rewrite serve_cons.
    destruct (serve_one_shape raw w) as [[e E]|[[v [Hv E]]|[c [v [Hv E]]]]];
      rewrite E.
    + simpl. repeat split; try lia. discriminate.
    + specialize (IH w). unfold after.
      destruct (serve rest w) as [[l w1] r]. unfold events in *. simpl in *.
      destruct IH as (A & B & C). repeat split; try lia.
      intros H. rewrite (C H). reflexivity.
    + specialize (IH (snd (create w c))). unfold after.
      destruct (serve rest (snd (create w c))) as [[l w1] r].
      unfold events in *. simpl in *.
      destruct IH as (A & B & C). repeat split; try lia.
      intros H. rewrite (C H). reflexivity.
Qed.

(** X10. A session never sends more frames than it has received, and
    never calls the backend more often than it replies. A session that
    ran to the peer's close after a first frame that decoded has sent
    exactly one frame for each frame received: the ready frame for the
    first, one result for each of the others. A peer that closes before
    its first frame gets nothing: [ConnectionClosed] leaves [handle]. *)
Theorem session_frame_count (inbox : list str) (w : World) :
  List.length (sends (events (handle inbox w))) <= List.length inbox /\
  List.length (calls (events (handle inbox w))) <=
    List.length (sends (events (handle inbox w))) /\
  (inbox = [] -> handle inbox w = ([], w, inr ConnectionClosed)) /\
  (forall init rest v,
     inbox = init :: rest -> json_loads init = inl v ->
     snd (handle inbox w) = inl tt ->
     sends (events (handle inbox w)) =
       ready_announcement :: sends (events (serve rest w)) /\
     List.length (sends (events (serve rest w))) = List.length rest).
Proof.
  destruct inbox as [|i0 r0].
  - simpl. split; [lia|]. split; [lia|]. split; [reflexivity|].
    intros init rest v H. discriminate H.
  - unfold handle. destruct (json_loads i0) as [v0|e0] eqn:L.
    + pose proof (serve_counts r0 w) as (A & B & C).
      unfold bind, send. destruct (serve r0 w) as [[l w1] r] eqn:S.
      unfold events in *. simpl in *.
      split; [lia|]. split; [lia|]. split; [discriminate|].
      intros init rest v H _ Hr. injection H as <- <-. rewrite S. simpl.
      split; [reflexivity | exact (C Hr)].
    + destruct e0; simpl; (split; [lia|]); (split; [lia|]);
        (split; [discriminate|]);
        intros init rest v H Hl; injection H as <- <-; congruence.
Qed.

End Session.

(** * Start-up, and a session of the started server *)

Section Started.

Variable py_int : str -> option Z.
Variable World : Type.
Variable create : World -> call -> (completion + failure) * World.
Variable float_of_int : Z -> option float.
Variable float_of_str : str -> option float.
Variable py_repr : value -> str.

(** X11. The module starts exactly when [BIND_PORT] (or ["8765"] when it
    is not set) converts to an integer and [OPENAI_API_KEY] is set and not
    empty; the settings are then the key, the port, and [OPENAI_MODEL] and
    [BIND_HOST] as set, even to the empty string, with ["gpt-4o-mini"] and
    ["0.0.0.0"] for the ones that are not set. A port that does not
    convert stops the import with the [ValueError] of [int] before the key
    is tested; with a good port, a key that is not set or empty stops it
    with [SystemExit]. *)
Theorem startup_outcome (env : str -> option str) :
  (forall cfg,
     startup py_int env = inl cfg <->
     exists key port,
       env (lit "OPENAI_API_KEY") = Some key /\ key <> [] /\
       py_int (match env (lit "BIND_PORT") with
               | Some v => v
               | None => lit "8765"
               end) = Some port /\
       cfg = Config key
               (match env (lit "OPENAI_MODEL") with
                | Some v => v
                | None => lit "gpt-4o-mini"
                end)
               (match env (lit "BIND_HOST") with
                | Some v => v
                | None => lit "0.0.0.0"
                end)
               port) /\
  (py_int (getenv env (lit "BIND_PORT") (lit "8765")) = None ->
   startup py_int env = inr PortValueError) /\
  (py_int (getenv env (lit "BIND_PORT") (lit "8765")) <> None ->
   env (lit "OPENAI_API_KEY") = None \/ env (lit "OPENAI_API_KEY") = Some [] ->
   startup py_int env =
   inr (SystemExit (lit "Missing OPENAI_API_KEY in environment or .env"))).
Proof.
  unfold startup, getenv. split; [|split].
  - intros cfg. split.
    + destruct (py_int _) as [port|] eqn:P; [|discriminate].
      destruct (env (lit "OPENAI_API_KEY")) as [[|k key]|]; try discriminate.
      simpl. intros H. injection H as <-.
      exists (k :: key), port. repeat split. discriminate.
    + intros (key & port & K & N & P & ->). rewrite P, K.
      destruct key as [|k key]; [contradiction|reflexivity].
  - intros ->. reflexivity.
  - intros P K. destruct (py_int _) as [port|]; [|contradiction].
    destruct K as [->| ->]; reflexivity.
Qed.

(** X12. In a server that started, an [llm.generate] request that names
    no [model] reaches the backend with the model of the environment:
    [OPENAI_MODEL] as it is set, ["gpt-4o-mini"] when it is not set. *)
Theorem unnamed_model_comes_from_the_environment
    (env : str -> option str) (cfg : config) (d p : dict) (c : call) (w : World) :
  startup py_int env = inl cfg ->
  dict_get d (lit "type") VNone = VStr (lit "request") ->
  dict_get d (lit "method") VNone = VStr (lit "llm.generate") ->
  dict_get d (lit "params") (VDict []) = VDict p ->
  lookup (lit "model") p = None ->
  In (Call c)
     (events (serve_decoded create float_of_int float_of_str py_repr
                (configured_model cfg) (VDict d) w)) ->
  model c = VStr (match env (lit "OPENAI_MODEL") with
                  | Some m => m
                  | None => lit "gpt-4o-mini"
                  end).
Proof.
  intros Hs Hty Hm Hp Hmodel Hin.
  assert (M : configured_model cfg =
              match env (lit "OPENAI_MODEL") with
              | Some m => m
              | None => lit "gpt-4o-mini"
              end).
  { revert Hs. unfold startup, getenv.
    destruct (py_int _); [|discriminate].
    destruct (Str.is_empty _); [discriminate|].
    intros H. injection H as <-. reflexivity. }
  rewrite (@generate_steps World create float_of_int float_of_str py_repr
             (configured_model cfg) d p w Hty Hm Hp) in Hin.
  destruct (py_float _ _ _) as [t|e]; [|destruct Hin].
  destruct (py_strip _) as [s|e]; [|destruct Hin].
  destruct (Str.is_empty s).
  { exfalso. destruct Hin as [H|[]]. discriminate H. }
  cbv zeta in Hin.
  assert (E : c = Create (dict_get p (lit "model") (VStr (configured_model cfg))) t
                (chat_messages
                   (dict_get p (lit "system")
                      (VStr (lit "You are a helpful assistant.")))
                   (dict_get p (lit "prompt") (VStr [])))).
  { destruct (create w _) as [[chat0|e0] w0]; simpl in Hin;
      destruct Hin as [H|[H|[]]]; congruence. }
  rewrite E. simpl. unfold dict_get. rewrite Hmodel, M. reflexivity.
Qed.

End Started.

(** * The session against the mock runtime *)

Notation mock_serve_decoded :=
  (serve_decoded Mock.create Mock.float_of_int Mock.float_of_str Mock.py_repr
     Mock.OPENAI_MODEL).
Notation mock_serve_one :=
  (serve_one Mock.create Mock.json_loads Mock.float_of_int Mock.float_of_str
     Mock.py_repr Mock.OPENAI_MODEL).
Notation mock_serve :=
  (serve Mock.create Mock.json_loads Mock.float_of_int Mock.float_of_str
     Mock.py_repr Mock.OPENAI_MODEL).
Notation mock_handle :=
  (handle Mock.create Mock.json_loads Mock.float_of_int Mock.float_of_str
     Mock.py_repr Mock.OPENAI_MODEL).

(** The call the mock backend receives for a prompt sent with no other
    parameter. *)
Notation default_call prompt :=
  (Create (VStr (lit "gpt-4o-mini")) default_temperature
     (chat_messages (VStr (lit "You are a helpful assistant.")) (VStr prompt))).

(** A whole session: the handshake, then the two scenarios of the
    specification, a frame that is not JSON and a message that is not a
    request, each answered by one frame, until the peer closes. *)
Example session_of_scenarios :
  mock_handle [Mock.initialize; Mock.hi_request; Mock.ping_request;
               Mock.not_json; Mock.event_message] 0 =
  ([Send ready_announcement;
    Call (default_call (lit "hi"));
    Send (success_result (VStr (lit "r1")) (VStr (lit "hello"))
            (VStr (lit "markdown")) None);
    Send (error_result (VStr (lit "r2")) (lit "NoSuchMethod")
            (lit "Unknown method ping"));
    Send (error_result (VStr (lit "unknown")) (lit "BadJSON")
            (lit "Request must be JSON"));
    Send (error_result (VStr (lit "e1")) (lit "BadRequest")
            (lit "Expected type=request"))],
   1, inl tt).
Proof. reflexivity. Qed.

(** ** The theorems at the mock's frames *)

(** C5, amended, at the frame [hello], which is not JSON. *)
Lemma bad_json_witness :
  Mock.json_loads Mock.not_json = inr JSONDecodeError /\
  mock_serve_one Mock.not_json 0 =
  ([Send (VDict [(lit "type", VStr (lit "result"));
                 (lit "id", VStr (lit "unknown"));
                 (lit "ok", VBool false);
                 (lit "error",
                  VDict [(lit "code", VStr (lit "BadJSON"));
                         (lit "message", VStr (lit "Request must be JSON"))])])],
   0, inl tt) /\
  mock_serve [Mock.not_json; Mock.ping_request] 0 =
  after [Send (VDict [(lit "type", VStr (lit "result"));
                      (lit "id", VStr (lit "unknown"));
                      (lit "ok", VBool false);
                      (lit "error",
                       VDict [(lit "code", VStr (lit "BadJSON"));
                              (lit "message", VStr (lit "Request must be JSON"))])])]
    (mock_serve [Mock.ping_request] 0).
Proof.
  split; [reflexivity|].
  exact (@bad_json_is_answered_and_survived nat Mock.create Mock.json_loads
           Mock.float_of_int Mock.float_of_str Mock.py_repr Mock.OPENAI_MODEL
           Mock.not_json [Mock.ping_request] 0 eq_refl).
Defined.

(** C8 at [{type:"event", id:"e1"}], and at the [ping] request, which has
    no [params]. *)
Lemma wrong_type_witness :
  mock_serve_decoded Mock.event_decoded 0 =
  ([Send (VDict [(lit "type", VStr (lit "result"));
                 (lit "id", VStr (lit "e1"));
                 (lit "ok", VBool false);
                 (lit "error",
                  VDict [(lit "code", VStr (lit "BadRequest"));
                         (lit "message", VStr (lit "Expected type=request"))])])],
   0, inl tt) /\
  mock_serve_decoded Mock.ping_decoded 0 =
  mock_serve_decoded
    (VDict [(lit "params", VDict []);
            (lit "type", VStr (lit "request")); (lit "id", VStr (lit "r2"));
            (lit "method", VStr (lit "ping"))]) 0.
Proof.
  split.
  - refine (proj1 (proj1 (@wrong_type_is_bad_request nat Mock.create Mock.json_loads
             Mock.float_of_int Mock.float_of_str Mock.py_repr Mock.OPENAI_MODEL
             [(lit "type", VStr (lit "event")); (lit "id", VStr (lit "e1"))] 0) _)).
    intros H. vm_compute in H. discriminate H.
  - exact (proj2 (proj2 (@wrong_type_is_bad_request nat Mock.create Mock.json_loads
             Mock.float_of_int Mock.float_of_str Mock.py_repr Mock.OPENAI_MODEL
             [(lit "type", VStr (lit "request")); (lit "id", VStr (lit "r2"));
              (lit "method", VStr (lit "ping"))] 0) eq_refl) eq_refl).
Defined.

(** C6 at the second scenario of the specification. *)
Lemma unknown_method_witness :
  mock_serve_decoded Mock.ping_decoded 0 =
  ([Send (VDict [(lit "type", VStr (lit "result"));
                 (lit "id", VStr (lit "r2"));
                 (lit "ok", VBool false);
                 (lit "error",
                  VDict [(lit "code", VStr (lit "NoSuchMethod"));
                         (lit "message", VStr (lit "Unknown method ping"))])])],
   0, inl tt).
Proof.
  refine (proj1 (@unknown_method_is_reported nat Mock.create Mock.json_loads
            Mock.float_of_int Mock.float_of_str Mock.py_repr Mock.OPENAI_MODEL
            [(lit "type", VStr (lit "request")); (lit "id", VStr (lit "r2"));
             (lit "method", VStr (lit "ping"))] 0 eq_refl _)).
  intros H. vm_compute in H. discriminate H.
Defined.

(** C7, amended, at the first scenario of the specification: the mock
    backend answers [hello] and reports no usage; the request names no
    temperature, and the call carries 0.2. *)
Lemma generate_success_witness :
  mock_serve_decoded Mock.hi_decoded 0 =
  ([Call (Create (VStr (lit "gpt-4o-mini")) 0.2%float
            (VList [VDict [(lit "role", VStr (lit "system"));
                           (lit "content", VStr (lit "You are a helpful assistant."))];
                    VDict [(lit "role", VStr (lit "user"));
                           (lit "content", VStr (lit "hi"))]]));
    Send (VDict [(lit "type", VStr (lit "result")); (lit "id", VStr (lit "r1"));
                 (lit "ok", VBool true);
                 (lit "data", VDict [(lit "text", VStr (lit "hello"));
                                     (lit "format", VStr (lit "markdown"));
                                     (lit "usage", VDict [])])])],
   1, inl tt).
Proof.
  exact (proj1 (@generate_success nat Mock.create Mock.json_loads Mock.float_of_int
           Mock.float_of_str Mock.py_repr Mock.OPENAI_MODEL
           [(lit "type", VStr (lit "request")); (lit "id", VStr (lit "r1"));
            (lit "method", VStr (lit "llm.generate"));
            (lit "params", VDict [(lit "prompt", VStr (lit "hi"))])]
           [(lit "prompt", VStr (lit "hi"))] (lit "hi") 0.2%float Mock.hello 0 1
           eq_refl eq_refl eq_refl eq_refl eq_refl eq_refl eq_refl)).
Defined.

(** C3, amended, at a prompt of three spaces. *)
Lemma blank_prompt_witness :
  blank (lit "   ") = true /\
  mock_serve_decoded Mock.blank_decoded 0 =
  ([Send (VDict [(lit "type", VStr (lit "result"));
                 (lit "id", VStr (lit "r4"));
                 (lit "ok", VBool false);
                 (lit "error",
                  VDict [(lit "code", VStr (lit "BadRequest"));
                         (lit "message", VStr (lit "prompt is required"))])])],
   0, inl tt).
Proof.
  split; [reflexivity|].
  exact (proj1 (@blank_prompt_is_bad_request nat Mock.create Mock.json_loads
           Mock.float_of_int Mock.float_of_str Mock.py_repr Mock.OPENAI_MODEL
           [(lit "type", VStr (lit "request")); (lit "id", VStr (lit "r4"));
            (lit "method", VStr (lit "llm.generate"));
            (lit "params", VDict [(lit "prompt", VStr (lit "   "))])]
           [(lit "prompt", VStr (lit "   "))] (lit "   ") default_temperature 0
           eq_refl eq_refl eq_refl eq_refl eq_refl eq_refl)).
Defined.

(** C9, amended, at the prompt [" hi "]: the spaces reach the backend. *)
Lemma unstripped_prompt_witness :
  strip (lit " hi ") = lit "hi" /\
  exists c,
    calls (events (mock_serve_decoded Mock.padded_decoded 0)) = [c] /\
    exists system,
      messages c =
      VList [VDict [(lit "role", VStr (lit "system")); (lit "content", system)];
             VDict [(lit "role", VStr (lit "user"));
                    (lit "content", VStr (lit " hi "))]].
Proof.
  split; [reflexivity|].
  exact (@prompt_is_passed_unstripped nat Mock.create Mock.float_of_int
           Mock.float_of_str Mock.py_repr Mock.OPENAI_MODEL
           [(lit "type", VStr (lit "request")); (lit "id", VStr (lit "r3"));
            (lit "method", VStr (lit "llm.generate"));
            (lit "params", VDict [(lit "prompt", VStr (lit " hi "));
                                  (lit "format", VStr (lit "text"))])]
           [(lit "prompt", VStr (lit " hi ")); (lit "format", VStr (lit "text"))]
           (lit " hi ") default_temperature 0
           eq_refl eq_refl eq_refl eq_refl eq_refl eq_refl).
Defined.

(** C2 at a request whose temperature is [null]: [float(None)] raises
    [TypeError], whatever the runtime's [float] does on numbers and
    strings. The session has sent the ready frame and nothing else, and the
    [ping] request that follows is never answered. *)
Lemma uncoercible_temperature_witness :
  Mock.json_loads Mock.null_temperature_request =
    inl Mock.null_temperature_decoded /\
  mock_serve_one Mock.null_temperature_request 0 = ([], 0, inr TypeError) /\
  mock_handle [Mock.initialize; Mock.null_temperature_request; Mock.ping_request] 0 =
  ([Send ready_announcement], 0, inr TypeError).
Proof.
  split; [reflexivity|].
  destruct (@uncoercible_temperature_escapes nat Mock.create Mock.json_loads
              Mock.float_of_int Mock.float_of_str Mock.py_repr Mock.OPENAI_MODEL
              [(lit "type", VStr (lit "request")); (lit "id", VStr (lit "r5"));
               (lit "method", VStr (lit "llm.generate"));
               (lit "params", VDict [(lit "prompt", VStr (lit "hi"));
                                     (lit "temperature", VNone)])]
              [(lit "prompt", VStr (lit "hi")); (lit "temperature", VNone)]
              TypeError 0 eq_refl eq_refl eq_refl eq_refl) as [_ H].
  destruct (H Mock.null_temperature_request [Mock.ping_request] eq_refl) as [_ H'].
  split; [reflexivity|].
  exact (H' Mock.initialize Mock.initialize_decoded eq_refl).
Defined.

(** C1 at the frame [[]], a JSON list. *)
Lemma non_object_witness :
  Mock.json_loads Mock.array_frame = inl (VList []) /\
  sends (events (mock_serve_one Mock.array_frame 0)) = [] /\
  mock_handle [Mock.initialize; Mock.array_frame; Mock.ping_request] 0 =
  ([Send ready_announcement], 0, inr AttributeError).
Proof.
  split; [reflexivity|].
  destruct (@non_object_message_gets_no_reply nat Mock.create Mock.json_loads
              Mock.float_of_int Mock.float_of_str Mock.py_repr Mock.OPENAI_MODEL
              (VList []) 0 I) as [_ H].
  destruct (H Mock.array_frame [Mock.ping_request] eq_refl) as [H1 [_ H2]].
  split; [exact H1|].
  exact (H2 Mock.initialize Mock.initialize_decoded eq_refl).
Defined.

(** C10 at the first scenario, sent once without [format] and once with
    [format] ["text"]: the same call, and each reply echoes its own
    format. *)
Lemma format_witness :
  calls (events (mock_serve_decoded Mock.hi_decoded 0)) =
  calls (events (mock_serve_decoded Mock.hi_text_decoded 0)) /\
  sends (events (mock_serve_decoded Mock.hi_decoded 0)) =
  [VDict [(lit "type", VStr (lit "result")); (lit "id", VStr (lit "r1"));
          (lit "ok", VBool true);
          (lit "data", VDict [(lit "text", VStr (lit "hello"));
                              (lit "format", VStr (lit "markdown"));
                              (lit "usage", VDict [])])]] /\
  sends (events (mock_serve_decoded Mock.hi_text_decoded 0)) =
  [VDict [(lit "type", VStr (lit "result")); (lit "id", VStr (lit "r1"));
          (lit "ok", VBool true);
          (lit "data", VDict [(lit "text", VStr (lit "hello"));
                              (lit "format", VStr (lit "text"));
                              (lit "usage", VDict [])])]].
Proof.
  assert (Hd : agree_except (lit "params")
                 [(lit "type", VStr (lit "request")); (lit "id", VStr (lit "r1"));
                  (lit "method", VStr (lit "llm.generate"));
                  (lit "params", VDict [(lit "prompt", VStr (lit "hi"))])]
                 [(lit "type", VStr (lit "request")); (lit "id", VStr (lit "r1"));
                  (lit "method", VStr (lit "llm.generate"));
                  (lit "params", VDict [(lit "prompt", VStr (lit "hi"));
                                        (lit "format", VStr (lit "text"))])]).
  { intros k Hk. cbn [lookup].
    destruct (Str.eqb k (lit "type")); [reflexivity|].
    destruct (Str.eqb k (lit "id")); [reflexivity|].
    destruct (Str.eqb k (lit "method")); [reflexivity|].
    destruct (Str.eqb k (lit "params")) eqn:E; [|reflexivity].
    apply eqb_eq in E. contradiction. }
  assert (Hp : agree_except (lit "format")
                 [(lit "prompt", VStr (lit "hi"))]
                 [(lit "prompt", VStr (lit "hi")); (lit "format", VStr (lit "text"))]).
  { intros k Hk. cbn [lookup].
    destruct (Str.eqb k (lit "prompt")); [reflexivity|].
    destruct (Str.eqb k (lit "format")) eqn:E; [|reflexivity].
    apply eqb_eq in E. contradiction. }
  destruct (@format_is_only_echoed nat Mock.create Mock.float_of_int
              Mock.float_of_str Mock.py_repr Mock.OPENAI_MODEL _ _ _ _ 0
              Hd eq_refl eq_refl Hp) as [H1 [_ [_ [H2 H3]]]].
  split; [exact H1|]. split.
  - apply (H2 (default_call (lit "hi")) Mock.hello 1); [left|]; reflexivity.
  - apply (H3 (default_call (lit "hi")) Mock.hello 1); [left|]; reflexivity.
Defined.

(** ** Where C3, C4, C5, C7 and C9 fail as they were stated *)

(** C4 as stated fails on a first frame of 2000 opening brackets: it does
    not decode, yet what [json.loads] raises is [RecursionError], which
    line 28 does not catch; no frame with [id] ["init"] is sent and the
    exception leaves [handle]. *)
Lemma undecodable_first_frame_is_unanswered :
  Mock.json_loads Mock.deep_frame = inr RecursionError /\
  sends (events (mock_handle [Mock.deep_frame; Mock.ping_request] 0)) = [] /\
  mock_handle [Mock.deep_frame; Mock.ping_request] 0 = ([], 0, inr RecursionError).
Proof. vm_compute. repeat split. Qed.

(** C5 as stated fails on a frame of the loop that is an integer of 4301
    digits: it does not decode, yet what [json.loads] raises is
    [ValueError], which line 53 does not catch; nothing is sent for it and
    the loop ends with the next request unanswered. *)
Lemma undecodable_request_is_unanswered :
  Mock.json_loads Mock.huge_integer = inr ValueError /\
  mock_serve_one Mock.huge_integer 0 = ([], 0, inr ValueError) /\
  mock_handle [Mock.initialize; Mock.huge_integer; Mock.ping_request] 0 =
  ([Send ready_announcement], 0, inr ValueError).
Proof. vm_compute. repeat split. Qed.

(** C7 as stated fails on the prompt [hi] sent with a [null] temperature
    to a backend that answers every call: the request has the shape the
    claim names and its prompt is not blank, yet no frame is sent and the
    backend is never called. *)
Lemma good_prompt_with_null_temperature_gets_no_result :
  Mock.json_loads Mock.null_temperature_request =
    inl Mock.null_temperature_decoded /\
  blank (lit "hi") = false /\
  (forall n c, Mock.create n c = (inl Mock.hello, S n)) /\
  sends (events (mock_serve_one Mock.null_temperature_request 0)) = [] /\
  calls (events (mock_serve_one Mock.null_temperature_request 0)) = [] /\
  mock_serve_one Mock.null_temperature_request 0 = ([], 0, inr TypeError).
Proof. repeat split. Qed.

(** C3 as stated fails on a blank prompt sent with a [null] temperature:
    the request is an [llm.generate] request whose prompt is three spaces,
    yet no frame is sent, [float] raises [TypeError] before the prompt is
    looked at, and the loop ends with the next request unanswered. *)
Lemma blank_prompt_with_null_temperature_is_unanswered :
  Mock.json_loads Mock.blank_null_temperature_request =
    inl Mock.blank_null_temperature_decoded /\
  blank (lit "   ") = true /\
  mock_serve_one Mock.blank_null_temperature_request 0 = ([], 0, inr TypeError) /\
  mock_serve [Mock.blank_null_temperature_request; Mock.ping_request] 0 =
  ([], 0, inr TypeError).
Proof. repeat split. Qed.

(** C9 as stated fails on the prompt [hi] sent with a [null] temperature:
    the prompt has characters that are not whitespace, yet the backend is
    never called. *)
Lemma nonblank_prompt_with_null_temperature_is_not_passed :
  Mock.json_loads Mock.null_temperature_request =
    inl Mock.null_temperature_decoded /\
  blank (lit "hi") = false /\
  calls (events (mock_serve_one Mock.null_temperature_request 0)) = [] /\
  mock_serve_one Mock.null_temperature_request 0 = ([], 0, inr TypeError).
Proof. repeat split. Qed.

(** ** The further properties at the mock's frames *)

Notation failing_serve_decoded :=
  (serve_decoded Mock.create_failing Mock.float_of_int Mock.float_of_str
     Mock.py_repr Mock.OPENAI_MODEL).

(** X1 at the first scenario against a backend that is down: of the seven
    lines of the traceback the reply keeps the last five. *)
Lemma backend_failure_witness :
  failing_serve_decoded Mock.hi_decoded 0 =
  ([Call (default_call (lit "hi"));
    Send (VDict [(lit "type", VStr (lit "result")); (lit "id", VStr (lit "r1"));
                 (lit "ok", VBool false);
                 (lit "error",
                  VDict [(lit "code", VStr (lit "LLMError"));
                         (lit "message", VStr (lit "Connection error."));
                         (lit "trace",
                          VList [VStr (lit "line 3"); VStr (lit "line 4");
                                 VStr (lit "line 5"); VStr (lit "line 6");
                                 VStr (lit "openai.APIConnectionError: Connection error.")])])])],
   1, inl tt).
Proof.
  refine (proj1 (@backend_failure_is_reported nat Mock.create_failing Mock.json_loads
            Mock.float_of_int Mock.float_of_str Mock.py_repr Mock.OPENAI_MODEL
            [(lit "type", VStr (lit "request")); (lit "id", VStr (lit "r1"));
             (lit "method", VStr (lit "llm.generate"));
             (lit "params", VDict [(lit "prompt", VStr (lit "hi"))])]
            [(lit "prompt", VStr (lit "hi"))] (lit "hi")
            (default_call (lit "hi")) Mock.outage 0 1
            eq_refl eq_refl eq_refl eq_refl eq_refl _ eq_refl)).
  left. reflexivity.
Defined.

(** X3 at the padded prompt: the call made is the one the theorem
    describes. *)
Lemma backend_call_witness :
  exists d p s t,
    Mock.padded_decoded = VDict d /\
    dict_get d (lit "type") VNone = VStr (lit "request") /\
    dict_get d (lit "method") VNone = VStr (lit "llm.generate") /\
    dict_get d (lit "params") (VDict []) = VDict p /\
    dict_get p (lit "prompt") (VStr []) = VStr s /\
    blank s = false /\
    py_float Mock.float_of_int Mock.float_of_str
      (dict_get p (lit "temperature") (VFloat default_temperature)) = inl t /\
    default_call (lit " hi ") =
    Create (dict_get p (lit "model") (VStr Mock.OPENAI_MODEL)) t
      (chat_messages
         (dict_get p (lit "system") (VStr (lit "You are a helpful assistant.")))
         (VStr s)).
Proof.
  apply (@backend_is_called_only_for_a_prompt nat Mock.create Mock.float_of_int
           Mock.float_of_str Mock.py_repr Mock.OPENAI_MODEL
           Mock.padded_decoded (default_call (lit " hi ")) 0).
  left. reflexivity.
Defined.

(** X4 at the [ping] request. *)
Lemma request_id_witness :
  member (lit "id")
    (error_result (VStr (lit "r2")) (lit "NoSuchMethod") (lit "Unknown method ping")) =
  Some (VStr (lit "r2")).
Proof.
  apply (@replies_carry_the_request_id nat Mock.create Mock.float_of_int
           Mock.float_of_str Mock.py_repr Mock.OPENAI_MODEL
           [(lit "type", VStr (lit "request")); (lit "id", VStr (lit "r2"));
            (lit "method", VStr (lit "ping"))] 0).
  left. reflexivity.
Defined.

(** X5 at the reply to the frame [hello], which is not JSON. *)
Lemma well_formed_reply_witness :
  let v := error_result (VStr (lit "unknown")) (lit "BadJSON")
             (lit "Request must be JSON") in
  member (lit "type") v = Some (VStr (lit "result")) /\
  ((member (lit "ok") v = Some (VBool true) /\
    member (lit "error") v = None /\
    exists text format_ u,
      member (lit "data") v =
      Some (VDict [(lit "text", text); (lit "format", format_);
                   (lit "usage", VDict u)])) \/
   (member (lit "ok") v = Some (VBool false) /\
    member (lit "data") v = None /\
    exists code, error_code v = Some (VStr code) /\ In code error_codes)).
Proof.
  apply (@replies_are_well_formed nat Mock.create Mock.json_loads Mock.float_of_int
           Mock.float_of_str Mock.py_repr Mock.OPENAI_MODEL Mock.not_json 0).
  left. reflexivity.
Defined.

(** X6 at the first scenario. *)
Lemma success_witness :
  exists c chat,
    fst (Mock.create 0 c) = inl chat /\
    events (mock_serve_decoded Mock.hi_decoded 0) =
    [Call c; Send (success_result (VStr (lit "r1")) (VStr (lit "hello"))
                     (VStr (lit "markdown")) None)] /\
    Some (VStr (lit "hello")) = Some (content chat).
Proof.
  apply (@success_only_after_a_completion nat Mock.create Mock.float_of_int
           Mock.float_of_str Mock.py_repr Mock.OPENAI_MODEL
           [(lit "type", VStr (lit "request")); (lit "id", VStr (lit "r1"));
            (lit "method", VStr (lit "llm.generate"));
            (lit "params", VDict [(lit "prompt", VStr (lit "hi"))])] 0
           (success_result (VStr (lit "r1")) (VStr (lit "hello"))
              (VStr (lit "markdown")) None)).
  - right. left. reflexivity.
  - reflexivity.
Defined.

(** X8 at the blank request. *)
Lemma answered_witness :
  exists v,
    sends (events (mock_serve_decoded Mock.blank_decoded 0)) = [v] /\
    is_result v = true /\
    snd (mock_serve_decoded Mock.blank_decoded 0) = inl tt.
Proof.
  exact (@well_typed_message_is_answered nat Mock.create Mock.float_of_int
           Mock.float_of_str Mock.py_repr Mock.OPENAI_MODEL
           [(lit "type", VStr (lit "request")); (lit "id", VStr (lit "r4"));
            (lit "method", VStr (lit "llm.generate"));
            (lit "params", VDict [(lit "prompt", VStr (lit "   "))])]
           [(lit "prompt", VStr (lit "   "))] (lit "   ") default_temperature 0
           eq_refl eq_refl eq_refl).
Defined.

(** X12 at an environment that sets the key only. *)
Lemma environment_model_witness :
  startup Mock.py_int Mock.env =
    inl (Config (lit "sk-test") (lit "gpt-4o-mini") (lit "0.0.0.0") 8765) /\
  model (default_call (lit "hi")) = VStr (lit "gpt-4o-mini").
Proof.
  split; [reflexivity|].
  refine (@unnamed_model_comes_from_the_environment Mock.py_int nat Mock.create
            Mock.float_of_int Mock.float_of_str Mock.py_repr Mock.env
            (Config (lit "sk-test") (lit "gpt-4o-mini") (lit "0.0.0.0") 8765)
            [(lit "type", VStr (lit "request")); (lit "id", VStr (lit "r1"));
             (lit "method", VStr (lit "llm.generate"));
             (lit "params", VDict [(lit "prompt", VStr (lit "hi"))])]
            [(lit "prompt", VStr (lit "hi"))]
            (default_call (lit "hi")) 0
            eq_refl eq_refl eq_refl eq_refl eq_refl _).
  left. reflexivity.
Defined.

(** X13 at the [ping] request and at the frame [[]]. *)
Lemma one_reply_witness :
  (exists v,
     sends [Send (error_result (VStr (lit "r2")) (lit "NoSuchMethod")
                    (lit "Unknown method ping"))] = [v] /\
     is_result v = true) /\
  (@nil event = [] /\ 0 = 0).
Proof.
  split.
  - exact (@completed_iteration_replied_once nat Mock.create Mock.json_loads
             Mock.float_of_int Mock.float_of_str Mock.py_repr Mock.OPENAI_MODEL
             Mock.ping_request 0 0 _ (inl tt) eq_refl).
  - exact (@completed_iteration_replied_once nat Mock.create Mock.json_loads
             Mock.float_of_int Mock.float_of_str Mock.py_repr Mock.OPENAI_MODEL
             Mock.array_frame 0 0 _ (inr AttributeError) eq_refl).
Defined.
